(** * The GIS assignment grader (test-script.py), embedded in Rocq

    The script is a [unittest] class, [TestGISAssignment]: a class-level
    fixture [setUpClass] that loads the learner's notebook, runs it, and
    rebuilds a name-to-value mapping by re-executing every code cell, followed
    by six test methods that read the class attributes the fixture left
    behind.

    The embedding follows the script line by line.  Python exceptions are an
    explicit [result] type, class attributes are a record whose fields are
    optional (an attribute that was never assigned raises [AttributeError]
    when read), and the fixture is written in a small state-and-exception
    monad over that record.  The collaborators the script calls but does not
    define (the notebook executor, the builtin [exec], the learner's own
    functions and the comparison operators of third-party objects) are the
    fields of a record [Env]. *)

From Stdlib Require Import ZArith Ascii String List Bool Lia.
From stdpp Require Import base option list gmap strings.

Open Scope string_scope.

(** * Regular expression of the import check

    [re.findall(r'^\s*import\s+(\w+)|^\s*from\s+(\w+)', source, re.MULTILINE)]

    Cell sources are Python [str] values.  They are modelled as Rocq strings,
    that is, as sequences of the code points 0 to 255; the character classes
    below are Python's [\s] and [\w] for [str] patterns on that range. *)
Module Re.

Definition code (c : ascii) : nat := nat_of_ascii c.

Definition between (lo hi n : nat) : bool := ((lo <=? n) && (n <=? hi))%nat.

(** [\s]: the characters for which [str.isspace()] holds. *)
Definition is_space (c : ascii) : bool :=
  let n := code c in
  between 9 13 n || between 28 32 n || (n =? 133)%nat || (n =? 160)%nat.

(** [\w]: the characters for which [str.isalnum()] holds, and the
    underscore. *)
Definition is_word (c : ascii) : bool :=
  let n := code c in
  between 48 57 n || between 65 90 n || (n =? 95)%nat || between 97 122 n
  || (n =? 170)%nat || between 178 179 n || (n =? 181)%nat || between 185 186 n
  || between 188 190 n || between 192 214 n || between 216 246 n
  || between 248 255 n.

Definition is_newline (c : ascii) : bool := (code c =? 10)%nat.

(** A greedy run [p*]: the longest prefix whose characters satisfy [p], and
    what follows it. *)
Fixpoint span (p : ascii -> bool) (s : string) : string * string :=
  match s with
  | EmptyString => (EmptyString, EmptyString)
  | String c s' =>
      if p c then let '(run, rest) := span p s' in (String c run, rest)
      else (EmptyString, s)
  end.

(** A literal: [lit] is consumed from the front of [s]. *)
Fixpoint literal (lit s : string) : option string :=
  match lit, s with
  | EmptyString, _ => Some s
  | String a lit', String c s' =>
      if Ascii.eqb a c then literal lit' s' else None
  | String _ _, EmptyString => None
  end.

Definition nonempty (s : string) : bool :=
  match s with EmptyString => false | String _ _ => true end.

(** One alternative without its anchor, [\s*kw\s+(\w+)], tried at the front
    of [s]: the captured group and the text after the match.  Each run is
    taken greedily.  The engine's backtracking into a shorter run cannot
    turn a failure into a success here: what follows [\s*] and [\s+] starts
    with a character that is not white space (the keyword is a literal of
    letters, a [\w] character is never [\s]), and nothing follows
    [(\w+)]. *)
Definition match_stmt (kw s : string) : option (string * string) :=
  let '(_, s1) := span is_space s in
  match literal kw s1 with
  | None => None
  | Some s2 =>
      let '(gap, s3) := span is_space s2 in
      if nonempty gap then
        let '(name, s4) := span is_word s3 in
        if nonempty name then Some (name, s4) else None
      else None
  end.

(** The whole pattern at a position where [^] holds.  The first alternative
    is tried first; a group that did not take part in the match is reported
    by [findall] as the empty string. *)
Definition match_here (s : string) : option ((string * string) * string) :=
  match match_stmt "import" s with
  | Some (name, rest) => Some ((name, ""), rest)
  | None =>
      match match_stmt "from" s with
      | Some (name, rest) => Some (("", name), rest)
      | None => None
      end
  end.

(** [search]: the leftmost position at which the pattern matches.  [bol]
    tells whether [^] holds at the current position: in MULTILINE mode, at
    the start of the text and right after every newline. *)
Fixpoint search (bol : bool) (s : string) : option ((string * string) * string) :=
  match (if bol then match_here s else None) with
  | Some r => Some r
  | None =>
      match s with
      | EmptyString => None
      | String c s' => search (is_newline c) s'
      end
  end.

(** [findall]: the matches from left to right, without overlap; the scan
    resumes where the previous match ended.  A match ends with a [\w]
    character, so [^] does not hold there.  Every match consumes at least
    one character, so [fuel] beyond the length of the text is never used
    up (lemma [findall_fuel_enough]). *)
Fixpoint findall_fuel (fuel : nat) (bol : bool) (s : string) : list (string * string) :=
  match fuel with
  | O => []
  | S fuel' =>
      match search bol s with
      | None => []
      | Some (groups, rest) => groups :: findall_fuel fuel' false rest
      end
  end.

Definition findall_from (bol : bool) (s : string) : list (string * string) :=
  findall_fuel (S (String.length s)) bol s.

Definition findall (s : string) : list (string * string) :=
  findall_from true s.

End Re.


Definition nl : string := String (ascii_of_nat 10) "".
Definition tab : string := String (ascii_of_nat 9) "".
Definition cr : string := String (ascii_of_nat 13) "".

(** * Python exceptions and results *)

(** The exception classes the script raises, catches or lets through.
    [OtherException] stands for any other subclass of [Exception] (it is not
    a [FileNotFoundError] nor an [AssertionError]); [NonException] for a
    [BaseException] that is not an [Exception] ([KeyboardInterrupt],
    [SystemExit]), which [except Exception] does not catch. *)
Inductive exn_class :=
| AssertionError
| AttributeError
| KeyError
| TypeError
| FileNotFoundError
| OtherException (name : string)
| NonException (name : string).

#[global] Instance exn_class_eq_dec : EqDecision exn_class.
Proof. solve_decision. Defined.

(** An exception object: its class and [str(e)]. *)
Record exn := Exn { exn_cls : exn_class; exn_msg : string }.

#[global] Instance exn_eq_dec : EqDecision exn.
Proof. solve_decision. Defined.

Definition is_Exception (e : exn) : bool :=
  match exn_cls e with NonException _ => false | _ => true end.

Definition is_FileNotFoundError (e : exn) : bool :=
  bool_decide (exn_cls e = FileNotFoundError).

Inductive result (A : Type) :=
| Ok (a : A)
| Raise (e : exn).
Arguments Ok {A} a.
Arguments Raise {A} e.

Definition rbind {A B} (r : result A) (k : A -> result B) : result B :=
  match r with Ok a => k a | Raise e => Raise e end.

Declare Scope result_scope.
Delimit Scope result_scope with res.
Notation "x <- r ;; k" := (rbind r (fun x => k))
  (at level 100, r at next level, right associativity) : result_scope.
Notation "r ;; k" := (rbind r (fun _ => k))
  (at level 100, right associativity) : result_scope.

(** * Notebook documents *)

(** A cell of an nbformat (version 4) document: its type tag and its source
    text.  Outputs and metadata are not read by the script. *)
Record Cell := { cell_type : string; source : string }.

#[global] Instance Cell_eq_dec : EqDecision Cell.
Proof. solve_decision. Defined.

Record Notebook := { cells : list Cell }.

(** [cell.cell_type == 'code'] *)
Definition is_code (c : Cell) : bool := String.eqb (cell_type c) "code".

(** * Runtime values

    The values a check can meet in the mapping of names rebuilt from the
    submission, as far as the checks tell them apart. *)

(** A coordinate reference system (a [pyproj.CRS]): its identity, and whether
    its coordinates are projected (linear units) rather than geographic
    (angles). *)
Record CRS := { crs_name : string; is_projected : bool }.

(** A [geopandas.GeoDataFrame]: its reference system ([None] when it has
    none), its number of rows and its column names. *)
Record GeoDataFrame := {
  gdf_crs : option CRS;
  gdf_len : nat;
  columns : list string
}.

#[warnings="-register-all"]
Inductive pyval :=
| VNone
| VBool (b : bool)
| VInt (n : Z)
| VStr (s : string)
| VCRS (c : CRS)
| VDict (d : gmap string pyval)            (* a [dict] with string keys *)
| VGeoDataFrame (g : GeoDataFrame)
| VGeoSeries (crs : option CRS)            (* has [.crs], is no GeoDataFrame *)
| VFunction (f : nat)                      (* a function the submission defines *)
| VObject (id : nat).                      (* anything else: not callable, no [.crs] *)

(** The type name Python prints in its error messages. *)
Definition type_name (v : pyval) : string :=
  match v with
  | VNone => "NoneType"
  | VBool _ => "bool"
  | VInt _ => "int"
  | VStr _ => "str"
  | VCRS _ => "CRS"
  | VDict _ => "dict"
  | VGeoDataFrame _ => "GeoDataFrame"
  | VGeoSeries _ => "GeoSeries"
  | VFunction _ => "function"
  | VObject _ => "object"
  end.

Definition crs_value (c : option CRS) : pyval :=
  match c with Some c => VCRS c | None => VNone end.

Definition no_attribute (v : pyval) (attr : string) : exn :=
  Exn AttributeError
      ("'" +:+ type_name v +:+ "' object has no attribute '" +:+ attr +:+ "'").

(** [v.crs] *)
Definition getattr_crs (v : pyval) : result pyval :=
  match v with
  | VGeoDataFrame g => Ok (crs_value (gdf_crs g))
  | VGeoSeries c => Ok (crs_value c)
  | _ => Raise (no_attribute v "crs")
  end.

(** [v.is_projected] *)
Definition getattr_is_projected (v : pyval) : result bool :=
  match v with
  | VCRS c => Ok (is_projected c)
  | _ => Raise (no_attribute v "is_projected")
  end.

(** [v.columns] *)
Definition getattr_columns (v : pyval) : result (list string) :=
  match v with
  | VGeoDataFrame g => Ok (columns g)
  | _ => Raise (no_attribute v "columns")
  end.

(** [len(v)] *)
Definition py_len (v : pyval) : result nat :=
  match v with
  | VGeoDataFrame g => Ok (gdf_len g)
  | VStr s => Ok (String.length s)
  | VDict d => Ok (size d)
  | _ => Raise (Exn TypeError ("object of type '" +:+ type_name v +:+ "' has no len()"))
  end.

(** [d[key]] on a mapping of names *)
Definition dict_getitem (d : gmap string pyval) (key : string) : result pyval :=
  match d !! key with
  | Some v => Ok v
  | None => Raise (Exn KeyError ("'" +:+ key +:+ "'"))
  end.

(** * The collaborators of the script *)

Record Env := {
  (** [ExecutePreprocessor(timeout=600, kernel_name='python3').preprocess(nb)]:
      the exception it raises, if any (an error in a cell, a timeout, a
      kernel that does not start), and the text written to [sys.stdout]
      while it ran.  It fills in the outputs of the cells in place and
      leaves their types and sources as they are. *)
  preprocess : Notebook -> option exn * string;
  (** The builtin [exec(source, globals)]: the mapping after the run, and
      the exception the source raised, if any.  The mapping is updated in
      place, so it keeps what the source bound before it raised. *)
  exec : string -> gmap string pyval -> gmap string pyval * option exn;
  (** A call of function number [f] of the submission on [args]. *)
  call : nat -> list pyval -> result pyval;
  (** The truth value of [a == b] and of [a != b], as the classes of [a]
      and [b] decide it, or the exception raised on the way. *)
  py_eq : pyval -> pyval -> result bool;
  py_ne : pyval -> pyval -> result bool;
  (** The source file ends in the middle of the last statement of
      [test_05_compare_projections], inside
      [self.assertIsInstance(result, dict, ...]: the message of that
      assertion and whatever the method does after it. *)
  test_05_msg : string;
  test_05_rest : pyval -> result unit
}.

(** The public classes and functions bound at the top level of the
    [geopandas] package, which the script imports as [gpd].  The package is
    not part of this repository.  Geometry constructors ([Point], [Polygon],
    [box]) belong to the [shapely] package and are not bound here. *)
Definition geopandas_namespace : list string :=
  [ "GeoDataFrame"; "GeoSeries"; "points_from_xy"; "read_file";
    "read_parquet"; "read_feather"; "read_postgis"; "list_layers";
    "sjoin"; "sjoin_nearest"; "overlay"; "clip"; "show_versions";
    "options" ].

(** [gpd.name] *)
Definition gpd (name : string) : result unit :=
  if bool_decide (name ∈ geopandas_namespace) then Ok tt
  else Raise (Exn AttributeError
                  ("module 'geopandas' has no attribute '" +:+ name +:+ "'")).

Definition epsg4326 : CRS := {| crs_name := "EPSG:4326"; is_projected := false |}.
Definition epsg3857 : CRS := {| crs_name := "EPSG:3857"; is_projected := true |}.

(** [gdf.to_crs(...)] on a table that has a reference system *)
Definition to_crs (g : GeoDataFrame) (c : CRS) : GeoDataFrame :=
  {| gdf_crs := Some c; gdf_len := gdf_len g; columns := columns g |}.

(** * The state of the test class *)

(** The class attributes [setUpClass] assigns; a field is [None] until the
    attribute is assigned.  [notebook] can hold Python's [None].  [console]
    collects what the script prints on the standard output. *)
Record ClassState := {
  notebook : option (option Notebook);
  code_cells : option (gmap nat Cell);
  execution_successful : option bool;
  execution_error : option string;
  execution_output : option string;
  globals : option (gmap string pyval);
  console : list string
}.

Definition initial : ClassState :=
  {| notebook := None; code_cells := None; execution_successful := None;
     execution_error := None; execution_output := None; globals := None;
     console := [] |}.

Definition with_notebook (v : option Notebook) (st : ClassState) : ClassState :=
  {| notebook := Some v; code_cells := code_cells st;
     execution_successful := execution_successful st;
     execution_error := execution_error st;
     execution_output := execution_output st;
     globals := globals st; console := console st |}.

Definition with_code_cells (v : gmap nat Cell) (st : ClassState) : ClassState :=
  {| notebook := notebook st; code_cells := Some v;
     execution_successful := execution_successful st;
     execution_error := execution_error st;
     execution_output := execution_output st;
     globals := globals st; console := console st |}.

Definition with_execution_successful (v : bool) (st : ClassState) : ClassState :=
  {| notebook := notebook st; code_cells := code_cells st;
     execution_successful := Some v;
     execution_error := execution_error st;
     execution_output := execution_output st;
     globals := globals st; console := console st |}.

Definition with_execution_error (v : string) (st : ClassState) : ClassState :=
  {| notebook := notebook st; code_cells := code_cells st;
     execution_successful := execution_successful st;
     execution_error := Some v;
     execution_output := execution_output st;
     globals := globals st; console := console st |}.

Definition with_execution_output (v : string) (st : ClassState) : ClassState :=
  {| notebook := notebook st; code_cells := code_cells st;
     execution_successful := execution_successful st;
     execution_error := execution_error st;
     execution_output := Some v;
     globals := globals st; console := console st |}.

Definition with_globals (v : gmap string pyval) (st : ClassState) : ClassState :=
  {| notebook := notebook st; code_cells := code_cells st;
     execution_successful := execution_successful st;
     execution_error := execution_error st;
     execution_output := execution_output st;
     globals := Some v; console := console st |}.

Definition with_console (v : list string) (st : ClassState) : ClassState :=
  {| notebook := notebook st; code_cells := code_cells st;
     execution_successful := execution_successful st;
     execution_error := execution_error st;
     execution_output := execution_output st;
     globals := globals st; console := v |}.

(** Reading an attribute that was never assigned. *)
Definition missing_attribute (name : string) : exn :=
  Exn AttributeError
      ("'TestGISAssignment' object has no attribute '" +:+ name +:+ "'").

Definition read {A} (name : string) (field : option A) : result A :=
  match field with
  | Some v => Ok v
  | None => Raise (missing_attribute name)
  end.

(** [X.notebook.cells] *)
Definition notebook_cells (st : ClassState) : result (list Cell) :=
  (nb <- read "notebook" (notebook st) ;;
   match nb with
   | Some nb => Ok (cells nb)
   | None => Raise (no_attribute VNone "cells")
   end)%res.

(** * The fixture monad: class state and exceptions *)

Definition M (A : Type) : Type := ClassState -> ClassState * result A.

Definition ret {A} (a : A) : M A := fun st => (st, Ok a).

Definition bind {A B} (m : M A) (k : A -> M B) : M B :=
  fun st =>
    match m st with
    | (st', Ok a) => k a st'
    | (st', Raise e) => (st', Raise e)
    end.

Definition lift {A} (r : result A) : M A := fun st => (st, r).

Definition modify (f : ClassState -> ClassState) : M unit :=
  fun st => (f st, Ok tt).

Declare Scope fixture_scope.
Delimit Scope fixture_scope with M.
Notation "x <- m ;; k" := (bind m (fun x => k))
  (at level 100, m at next level, right associativity) : fixture_scope.
Notation "m ;; k" := (bind m (fun _ => k))
  (at level 100, right associativity) : fixture_scope.

(** [try: body / except <catches> as e: handler e]: the handler runs in the
    state the body left behind. *)
Definition try_except {A} (body : M A) (catches : exn -> bool)
    (handler : exn -> M A) : M A :=
  fun st =>
    match body st with
    | (st', Raise e) => if catches e then handler e st' else (st', Raise e)
    | done => done
    end.

(** [try: ... except ...: ... finally: final]: [final] runs on every way
    out, and an exception on its way out goes on afterwards. *)
Definition try_finally {A} (body : M A) (final : M unit) : M A :=
  fun st =>
    match body st with
    | (st', r) =>
        match final st' with
        | (st'', Ok _) => (st'', r)
        | (st'', Raise e) => (st'', Raise e)
        end
    end.

(** [for x in xs: body x] *)
Fixpoint for_each {A} (xs : list A) (body : A -> M unit) : M unit :=
  match xs with
  | [] => ret tt
  | x :: xs' => (body x ;; for_each xs' body)%M
  end.

(** [enumerate(xs)] *)
Fixpoint enumerate_from {A} (i : nat) (xs : list A) : list (nat * A) :=
  match xs with
  | [] => []
  | x :: xs' => (i, x) :: enumerate_from (S i) xs'
  end.

Definition enumerate {A} (xs : list A) : list (nat * A) := enumerate_from 0 xs.

(** [print(line)] *)
Definition print (line : string) : M unit :=
  modify (fun st => with_console (console st ++ [line]) st).

(** [cls.code_cells[i] = cell] *)
Definition code_cells_setitem (i : nat) (cell : Cell) : M unit :=
  fun st =>
    match code_cells st with
    | Some d => (with_code_cells (<[i := cell]> d) st, Ok tt)
    | None => (st, Raise (missing_attribute "code_cells"))
    end.

(** [cls.notebook.cells] *)
Definition cls_notebook_cells : M (list Cell) :=
  fun st => (st, notebook_cells st).

Section Harness.

Context (E : Env).

(** [executor.preprocess(cls.notebook)], lines 33 to 41.  The attribute
    holds the document at this point; the executor is never handed
    [None]. *)
Definition run_executor : M unit :=
  fun st =>
    match read "notebook" (notebook st) with
    | Ok (Some nb) =>
        match fst (preprocess E nb) with
        | None => (st, Ok tt)
        | Some e => (st, Raise e)
        end
    | Ok None => (st, Raise (no_attribute VNone "cells"))
    | Raise e => (st, Raise e)
    end.

(** [sys.stdout.getvalue()], line 48: what was written while the standard
    output was redirected, lines 36 to 41 *)
Definition captured_output : M string :=
  fun st =>
    match read "notebook" (notebook st) with
    | Ok (Some nb) => (st, Ok (snd (preprocess E nb)))
    | Ok None => (st, Raise (no_attribute VNone "cells"))
    | Raise e => (st, Raise e)
    end.

(** [exec(cell.source, cls.globals)], line 55 *)
Definition exec_cell (cell : Cell) : M unit :=
  fun st =>
    match globals st with
    | Some g =>
        match exec E (source cell) g with
        | (g', None) => (with_globals g' st, Ok tt)
        | (g', Some e) => (with_globals g' st, Raise e)
        end
    | None => (st, Raise (missing_attribute "globals"))
    end.

(** [TestGISAssignment.setUpClass], lines 20 to 60.  [disk] is the outcome
    of lines 23 and 24: the parsed document, or the exception raised by
    [open] or by [nbformat.read]. *)
Definition setUpClass (disk : result Notebook) : M unit :=
  try_except
    ( nb <- lift disk ;;
      modify (with_notebook (Some nb)) ;;
      (* Extract code cells for testing *)
      modify (with_code_cells ∅) ;;
      cs <- cls_notebook_cells ;;
      for_each (enumerate cs) (fun '(i, cell) =>
        if is_code cell then code_cells_setitem i cell else ret tt) ;;
      (* Execute the notebook *)
      try_finally
        (try_except
           (run_executor ;;
            modify (with_execution_successful true))
           is_Exception
           (fun e =>
              modify (with_execution_successful false) ;;
              modify (with_execution_error (exn_msg e))))
        (out <- captured_output ;;
         modify (with_execution_output out)) ;;
      (* Get the globals after execution for testing *)
      modify (with_globals ∅) ;;
      cs <- cls_notebook_cells ;;
      for_each cs (fun cell =>
        if is_code cell then exec_cell cell else ret tt) )%M
    is_FileNotFoundError
    (fun _ =>
       ( print "Student submission notebook not found." ;;
         modify (with_notebook None) ;;
         modify (with_execution_successful false) )%M).

End Harness.

(** * The assertions of [unittest.TestCase]

    A failed assertion raises [AssertionError].  The message kept here is
    the one the script passes as [msg]; the text [unittest] puts in front of
    it (the values compared) is left out. *)

Definition fail {A} (msg : string) : result A := Raise (Exn AssertionError msg).

Definition assertTrue (b : bool) (msg : string) : result unit :=
  if b then Ok tt else fail msg.

(** [assertIn(x, xs, msg)] on a list of strings *)
Definition assertIn (x : string) (xs : list string) (msg : string) : result unit :=
  if bool_decide (x ∈ xs) then Ok tt else fail msg.

(** [assertIn(key, d, msg)] on a mapping *)
Definition assertInDict (key : string) (d : gmap string pyval) (msg : string)
    : result unit :=
  if bool_decide (is_Some (d !! key)) then Ok tt else fail msg.

(** [assertGreater(a, b, msg)] *)
Definition assertGreater (a b : nat) (msg : string) : result unit :=
  if (b <? a)%nat then Ok tt else fail msg.

(** [isinstance(v, gpd.GeoDataFrame)] *)
Definition is_GeoDataFrame (v : pyval) : bool :=
  match v with VGeoDataFrame _ => true | _ => false end.

(** [isinstance(v, dict)] *)
Definition is_dict (v : pyval) : bool :=
  match v with VDict _ => true | _ => false end.

Definition assertIsInstance (isinstance : pyval -> bool) (v : pyval)
    (msg : string) : result unit :=
  if isinstance v then Ok tt else fail msg.

(** [key in v] and [v[key]] on a value *)
Definition py_contains (key : string) (v : pyval) : result bool :=
  match v with
  | VDict d => Ok (bool_decide (is_Some (d !! key)))
  | _ => Raise (Exn TypeError
                   ("argument of type '" +:+ type_name v +:+ "' is not iterable"))
  end.

Definition py_getitem (v : pyval) (key : string) : result pyval :=
  match v with
  | VDict d => dict_getitem d key
  | _ => Raise (Exn TypeError
                   ("'" +:+ type_name v +:+ "' object is not subscriptable"))
  end.

(** [for x in xs: body x] inside a test method *)
Fixpoint for_all {A} (xs : list A) (body : A -> result unit) : result unit :=
  match xs with
  | [] => Ok tt
  | x :: xs' => (body x ;; for_all xs' body)%res
  end.

(** The test methods read the class attributes and never assign them, so
    [self.globals] is read once at the top of each method. *)
Section Checks.

Context (E : Env).

(** [assertEqual(a, b, msg)]: fails when [not a == b] *)
Definition assertEqual (a b : pyval) (msg : string) : result unit :=
  (eq <- py_eq E a b ;; if eq then Ok tt else fail msg)%res.

(** [assertNotEqual(a, b, msg)]: fails when [not a != b] *)
Definition assertNotEqual (a b : pyval) (msg : string) : result unit :=
  (ne <- py_ne E a b ;; if ne then Ok tt else fail msg)%res.

(** [f(args)] *)
Definition py_call (f : pyval) (args : list pyval) : result pyval :=
  match f with
  | VFunction n => call E n args
  | _ => Raise (Exn TypeError ("'" +:+ type_name f +:+ "' object is not callable"))
  end.

(** ** test_00_notebook_execution, lines 62 to 65 *)
Definition test_00_notebook_execution (self : ClassState) : result unit :=
  (ok <- read "execution_successful" (execution_successful self) ;;
   assertTrue ok
     ("Notebook execution failed with error: "
      +:+ default "Unknown error" (execution_error self)))%res.

(** ** test_01_required_libraries, lines 67 to 82 *)

Definition required_libraries : list string :=
  [ "geopandas"; "pandas"; "numpy"; "matplotlib"; "seaborn"; "folium";
    "contextily" ].

(** Lines 76 to 79 for one cell: each match is a pair
    [(direct_import, from_import)], and its non-empty parts are kept. *)
Definition kept (imp : string * string) : list string :=
  List.filter Re.nonempty [fst imp; snd imp].

Definition imports_of (src : string) : list string :=
  flat_map kept (Re.findall src).

(** Lines 72 to 79: the list [import_statements] after the loop. *)
Definition import_statements (cs : list Cell) : list string :=
  flat_map (fun cell => if is_code cell then imports_of (source cell) else [])
           cs.

Definition test_01_required_libraries (self : ClassState) : result unit :=
  (cs <- notebook_cells self ;;
   let found := import_statements cs in
   for_all required_libraries (fun lib =>
     assertIn lib found
       ("Required library '" +:+ lib +:+ "' is not imported")))%res.

(** ** test_02_load_shapefile, lines 84 to 99 *)
Definition test_02_load_shapefile (self : ClassState) : result unit :=
  (g <- read "globals" (globals self) ;;
   assertInDict "tz_shapefile" g
     "Tanzania shapefile variable 'tz_shapefile' not found" ;;
   v <- dict_getitem g "tz_shapefile" ;;
   gpd "GeoDataFrame" ;;
   assertIsInstance is_GeoDataFrame v
     "Tanzania shapefile should be a GeoDataFrame" ;;
   v <- dict_getitem g "tz_shapefile" ;;
   n <- py_len v ;;
   assertGreater n 0 "Tanzania shapefile should not be empty" ;;
   v <- dict_getitem g "tz_shapefile" ;;
   cols <- getattr_columns v ;;
   assertIn "geometry" cols
     "Tanzania shapefile should have a 'geometry' column")%res.

(** ** test_03_describe_geodataframe, lines 101 to 128 *)

Definition required_keys : list string :=
  [ "crs"; "geometry_type"; "num_features"; "attributes"; "bounds" ].

(** The table of lines 107 to 110: two points, a column [col1], and the
    reference system EPSG:4326. *)
Definition test_gdf : GeoDataFrame :=
  {| gdf_crs := Some epsg4326; gdf_len := 2; columns := ["col1"; "geometry"] |}.

Definition test_03_describe_geodataframe (self : ClassState) : result unit :=
  (g <- read "globals" (globals self) ;;
   assertInDict "describe_geodataframe" g
     "Function 'describe_geodataframe' not found" ;;
   (* Test with a simple GeoDataFrame *)
   gpd "GeoDataFrame" ;;
   gpd "points_from_xy" ;;
   let test_gdf := VGeoDataFrame test_gdf in
   (* Run the function *)
   f <- dict_getitem g "describe_geodataframe" ;;
   result <- py_call f [test_gdf] ;;
   assertIsInstance is_dict result
     "describe_geodataframe should return a dictionary" ;;
   for_all required_keys (fun key =>
     has <- py_contains key result ;;
     assertTrue has
       ("describe_geodataframe result should have '" +:+ key +:+ "' key")) ;;
   (* Check specific values *)
   n <- py_getitem result "num_features" ;;
   assertEqual n (VInt 2)
     "describe_geodataframe should correctly count features" ;;
   c <- py_getitem result "crs" ;;
   c' <- getattr_crs test_gdf ;;
   assertEqual c c'
     "describe_geodataframe should correctly identify CRS")%res.

(** ** test_04_reproject_data, lines 130 to 149 *)
Definition test_04_reproject_data (self : ClassState) : result unit :=
  (g <- read "globals" (globals self) ;;
   assertInDict "tz_projected" g
     "Reprojected Tanzania shapefile variable 'tz_projected' not found" ;;
   tz_shapefile <- dict_getitem g "tz_shapefile" ;;
   tz_projected <- dict_getitem g "tz_projected" ;;
   (* Check if tz_projected is a GeoDataFrame *)
   gpd "GeoDataFrame" ;;
   assertIsInstance is_GeoDataFrame tz_projected
     "tz_projected should be a GeoDataFrame" ;;
   (* Check if CRS was changed *)
   c1 <- getattr_crs tz_shapefile ;;
   c2 <- getattr_crs tz_projected ;;
   assertNotEqual c1 c2 "The CRS should be changed after reprojection" ;;
   (* Check if it is a projected CRS *)
   c <- getattr_crs tz_projected ;;
   p <- getattr_is_projected c ;;
   assertTrue p "The reprojected data should use a projected CRS")%res.

(** ** test_05_compare_projections, lines 151 to the end of the file *)
Definition test_05_compare_projections (self : ClassState) : result unit :=
  (g <- read "globals" (globals self) ;;
   assertInDict "compare_projections" g
     "Function 'compare_projections' not found" ;;
   (* Get the function *)
   compare_projections <- dict_getitem g "compare_projections" ;;
   (* Create test data *)
   gpd "GeoDataFrame" ;;
   gpd "box" ;;
   let test_gdf1 :=
     {| gdf_crs := Some epsg4326; gdf_len := 1; columns := ["col1"; "geometry"] |} in
   let test_gdf2 := to_crs test_gdf1 epsg3857 in
   (* Run the function *)
   result <- py_call compare_projections
               [VGeoDataFrame test_gdf1; VGeoDataFrame test_gdf2] ;;
   (* Check if it returns a dictionary *)
   assertIsInstance is_dict result (test_05_msg E) ;;
   test_05_rest E result)%res.

(** The test methods in the order [unittest] runs them. *)
Definition checks : list (ClassState -> result unit) :=
  [ test_00_notebook_execution; test_01_required_libraries;
    test_02_load_shapefile; test_03_describe_geodataframe;
    test_04_reproject_data; test_05_compare_projections ].

End Checks.

(** * What the test runner reports

    [unittest] reports a method that returns as passed, one that raises
    [AssertionError] as a failure with its message, and one that raises
    anything else as an error.  (A [KeyboardInterrupt], which stops the
    whole run instead, is not told apart here.) *)
Inductive outcome :=
| Passed
| Failed (msg : string)
| Errored (e : exn).

Definition report (r : result unit) : outcome :=
  match r with
  | Ok _ => Passed
  | Raise e =>
      if bool_decide (exn_cls e = AssertionError) then Failed (exn_msg e)
      else Errored e
  end.

(** The run of the class: when [setUpClass] raises, [unittest] reports that
    error for the class and runs none of its methods; otherwise it runs the
    methods on the state the fixture left. *)
Definition run_suite (E : Env) (disk : result Notebook) : exn + list outcome :=
  match setUpClass E disk initial with
  | (_, Raise e) => inl e
  | (self, Ok _) => inr (map (fun check => report (check self)) (checks E))
  end.


(** The environment [E] with another executor. *)
Definition with_executor (p : Notebook -> option exn * string) (E : Env) : Env :=
  {| preprocess := p; exec := exec E; call := call E; py_eq := py_eq E;
     py_ne := py_ne E; test_05_msg := test_05_msg E;
     test_05_rest := test_05_rest E |}.





(** * The two loops of the fixture as functions

    The same loops as in [setUpClass], written over the data they build;
    lemmas [for_each_index] and [for_each_exec] relate them to the fixture. *)

(** Lines 27 to 30: the index [code_cells], from position [i] on. *)
Fixpoint index_code_cells (i : nat) (cs : list Cell) (d : gmap nat Cell)
    : gmap nat Cell :=
  match cs with
  | [] => d
  | cell :: cs' =>
      index_code_cells (S i) cs' (if is_code cell then <[i := cell]> d else d)
  end.

(** Lines 53 to 55: the mapping after the cells were re-executed into [g],
    and the exception that stopped the loop, if any. *)
Fixpoint run_cells (E : Env) (cs : list Cell) (g : gmap string pyval)
    : gmap string pyval * option exn :=
  match cs with
  | [] => (g, None)
  | cell :: cs' =>
      if is_code cell then
        match exec E (source cell) g with
        | (g', None) => run_cells E cs' g'
        | (g', Some e) => (g', Some e)
        end
      else run_cells E cs' g
  end.

(** The class state when line 52 is reached: the document is loaded and
    indexed, and the executor has returned or has raised an [Exception]. *)
Definition executed (E : Env) (nb : Notebook) : ClassState :=
  {| notebook := Some (Some nb);
     code_cells := Some (index_code_cells 0 (cells nb) ∅);
     execution_successful :=
       Some (match fst (preprocess E nb) with None => true | Some _ => false end);
     execution_error := exn_msg <$> fst (preprocess E nb);
     execution_output := Some (snd (preprocess E nb));
     globals := None;
     console := [] |}.

(** The class state when the executor raises past [except Exception]: only
    the [finally] clause has run after it. *)
Definition interrupted (E : Env) (nb : Notebook) : ClassState :=
  {| notebook := Some (Some nb);
     code_cells := Some (index_code_cells 0 (cells nb) ∅);
     execution_successful := None;
     execution_error := None;
     execution_output := Some (snd (preprocess E nb));
     globals := None;
     console := [] |}.

(** The class state the handler of lines 57 to 60 leaves, entered from
    state [st]. *)
Definition degraded (st : ClassState) : ClassState :=
  with_execution_successful false
    (with_notebook None
       (with_console (console st ++ ["Student submission notebook not found."]) st)).

(** A text as the sequence of its lines, each ended by a newline. *)
Fixpoint unlines (ls : list string) : string :=
  match ls with
  | [] => ""
  | l :: ls' => l +:+ nl +:+ unlines ls'
  end.

Fixpoint all_chars (p : ascii -> bool) (s : string) : bool :=
  match s with
  | EmptyString => true
  | String c s' => p c && all_chars p s'
  end.

(** The text does not go on with a character of class [p]. *)
Definition stops (p : ascii -> bool) (rest : string) : Prop :=
  match rest with
  | EmptyString => True
  | String c _ => p c = false
  end.

Definition not_newline (c : ascii) : bool := negb (Re.is_newline c).

(** The text does not go on with a [\w] character. *)
Definition ends_word (rest : string) : bool :=
  match rest with
  | EmptyString => true
  | String c _ => negb (Re.is_word c)
  end.

(** A line that opens no import statement: it holds no newline and, after
    its leading white space, goes on with neither keyword. *)
Definition plain_line (l : string) : bool :=
  all_chars not_newline l
  && match Re.literal "import" (snd (Re.span Re.is_space l)),
           Re.literal "from" (snd (Re.span Re.is_space l)) with
     | None, None => true
     | _, _ => false
     end.

(** * A sample world

    Concrete collaborators and submissions, for the examples that run the
    embedding. *)
Module Sample.

#[global] Instance CRS_eq_dec : EqDecision CRS.
Proof. solve_decision. Defined.

(** [==] on the builtin values and between reference systems. *)
Definition eq (a b : pyval) : result bool :=
  Ok match a, b with
     | VNone, VNone => true
     | VBool x, VBool y => Bool.eqb x y
     | VBool x, VInt y | VInt y, VBool x => (Z.b2z x =? y)%Z
     | VInt x, VInt y => (x =? y)%Z
     | VStr x, VStr y => String.eqb x y
     | VCRS x, VCRS y => bool_decide (x = y)
     | _, _ => false
     end.

Definition ne (a b : pyval) : result bool :=
  match eq a b with Ok t => Ok (negb t) | Raise e => Raise e end.

Definition utm37s : CRS := {| crs_name := "EPSG:21037"; is_projected := true |}.

Definition tz_shapefile : GeoDataFrame :=
  {| gdf_crs := Some epsg4326; gdf_len := 31; columns := ["name"; "geometry"] |}.

Definition tz_projected : GeoDataFrame := to_crs tz_shapefile utm37s.

(** What a [describe_geodataframe] that follows the assignment returns on
    a table [g]. *)
Definition description (g : GeoDataFrame) : gmap string pyval :=
  <["crs" := crs_value (gdf_crs g)]>
  (<["geometry_type" := VStr "Point"]>
  (<["num_features" := VInt (Z.of_nat (gdf_len g))]>
  (<["attributes" := VStr "col1"]>
  (<["bounds" := VStr "0 0 1 1"]> ∅)))).

(** The functions of the sample submissions:
    0 is [describe_geodataframe], 1 is [compare_projections],
    2 is a [describe_geodataframe] that adds a key [area]. *)
Definition functions (f : nat) (args : list pyval) : result pyval :=
  match f, args with
  | 0, [VGeoDataFrame g] => Ok (VDict (description g))
  | 1, [_; _] => Ok (VDict ∅)
  | 2, [VGeoDataFrame g] => Ok (VDict (<["area" := VInt 0]> (description g)))
  | _, _ => Raise (Exn TypeError "bad arguments")
  end.

Definition imports_src : string :=
  "import geopandas as gpd" +:+ nl +:+
  "import pandas as pd" +:+ nl +:+
  "import numpy as np" +:+ nl +:+
  "import matplotlib.pyplot as plt" +:+ nl +:+
  "import seaborn as sns" +:+ nl +:+
  "import folium" +:+ nl +:+
  "import contextily as ctx" +:+ nl.

Definition load_src : string :=
  "tz_shapefile = gpd.read_file('tanzania.shp')" +:+ nl +:+
  "tz_projected = tz_shapefile.to_crs(epsg=21037)" +:+ nl.

Definition functions_src : string :=
  "def describe_geodataframe(gdf): ..." +:+ nl +:+
  "def compare_projections(a, b): ..." +:+ nl.

Definition projected_only_src : string :=
  "tz_projected = gpd.read_file('tanzania.shp').to_crs(epsg=21037)" +:+ nl.

Definition division_src : string := "ratio = 1 / 0" +:+ nl.

(** [exec] on the sample sources; any other source binds nothing. *)
Definition run (src : string) (g : gmap string pyval)
    : gmap string pyval * option exn :=
  if String.eqb src load_src then
    (<["tz_projected" := VGeoDataFrame tz_projected]>
       (<["tz_shapefile" := VGeoDataFrame tz_shapefile]> g), None)
  else if String.eqb src functions_src then
    (<["compare_projections" := VFunction 1]>
       (<["describe_geodataframe" := VFunction 0]> g), None)
  else if String.eqb src projected_only_src then
    (<["tz_projected" := VGeoDataFrame tz_projected]> g, None)
  else if String.eqb src division_src then
    (g, Some (Exn (OtherException "ZeroDivisionError") "division by zero"))
  else (g, None).


(** A world in which the executor runs every notebook to its end. *)
Definition world : Env :=
  {| preprocess := fun _ => (None, "");
     exec := run;
     call := functions;
     py_eq := eq;
     py_ne := ne;
     test_05_msg := "compare_projections should return a dictionary";
     test_05_rest := fun _ => Ok tt |}.


Definition markdown (text : string) : Cell :=
  {| cell_type := "markdown"; source := text |}.

Definition code_cell (text : string) : Cell :=
  {| cell_type := "code"; source := text |}.

(** A submission that does all the assignment asks for. *)
Definition submission : Notebook :=
  {| cells := [ markdown "# GIS assignment"; code_cell imports_src;
                code_cell load_src; markdown "import antigravity";
                code_cell functions_src ] |}.

(** A submission with a cell that divides by zero. *)
Definition failing_submission : Notebook :=
  {| cells := [ code_cell imports_src; code_cell division_src;
                code_cell load_src ] |}.

(** [open] on a path that does not exist. *)
Definition not_found : exn :=
  Exn FileNotFoundError
      "[Errno 2] No such file or directory: 'student_submission.ipynb'".

(** The code cells of [submission] alone. *)
Definition code_only : Notebook :=
  {| cells := [ code_cell imports_src; code_cell load_src;
                code_cell functions_src ] |}.


(** A class state that binds [tz_projected] and not [tz_shapefile]: the
    state after the fixture ran on a notebook with the one cell
    [projected_only_src]. *)
Definition projected_only : ClassState :=
  fst (setUpClass world (Ok {| cells := [code_cell projected_only_src] |}) initial).

(** The class state after the fixture ran on [submission]. *)
Definition loaded : ClassState :=
  fst (setUpClass world (Ok submission) initial).

(** A notebook file that is there and is no JSON document. *)
Definition not_json : exn :=
  Exn (OtherException "NotJSONError") "Notebook does not appear to be JSON".

(** The world with an executor that is interrupted from the keyboard. *)
Definition interrupt : exn := Exn (NonException "KeyboardInterrupt") "".

Definition interrupted_world : Env :=
  with_executor (fun _ => (Some interrupt, "partial output")) world.

(** A cell that reads a data file which is not on the grading machine. *)
Definition read_data_src : string := "rows = open('regions.csv').read()" +:+ nl.

Definition data_not_found : exn :=
  Exn FileNotFoundError "[Errno 2] No such file or directory: 'regions.csv'".

(** [exec] in a world without that data file. *)
Definition run_offline (src : string) (g : gmap string pyval)
    : gmap string pyval * option exn :=
  if String.eqb src read_data_src then (g, Some data_not_found) else run src g.

Definition offline_world : Env :=
  {| preprocess := preprocess world;
     exec := run_offline;
     call := call world;
     py_eq := py_eq world;
     py_ne := py_ne world;
     test_05_msg := test_05_msg world;
     test_05_rest := test_05_rest world |}.

(** A submission that loads the shapefile and then reads the data file. *)
Definition data_submission : Notebook :=
  {| cells := [ code_cell load_src; code_cell read_data_src;
                code_cell functions_src ] |}.

(** A submission whose only import is a comma list. *)
Definition comma_submission : Notebook :=
  {| cells := [ code_cell ("import geopandas, pandas" +:+ nl) ] |}.

(** Class states that bind one name to one value. *)
Definition binding (name : string) (v : pyval) : ClassState :=
  with_globals (<[name := v]> ∅) initial.

(** Functions of further sample submissions: 3 returns a list-like object
    and no [dict], 4 returns a [dict] without [num_features], 5 counts the
    features wrongly, 6 raises. *)
Definition more_functions (f : nat) (args : list pyval) : result pyval :=
  match f, args with
  | 3, [_] => Ok (VObject 0)
  | 4, [VGeoDataFrame g] => Ok (VDict (delete "num_features" (description g)))
  | 5, [VGeoDataFrame g] =>
      Ok (VDict (<["num_features" := VInt 3]> (description g)))
  | 6, [_] => Raise (Exn (OtherException "ValueError") "no geometry")
  | _, _ => functions f args
  end.

Definition wide_world : Env :=
  {| preprocess := preprocess world;
     exec := exec world;
     call := more_functions;
     py_eq := py_eq world;
     py_ne := py_ne world;
     test_05_msg := test_05_msg world;
     test_05_rest := test_05_rest world |}.

(** Class states for the transformation check. *)
Definition both (source projected : pyval) : ClassState :=
  with_globals (<["tz_projected" := projected]>
                  (<["tz_shapefile" := source]> ∅)) initial.

Definition without_crs : GeoDataFrame :=
  {| gdf_crs := None; gdf_len := 31; columns := ["name"; "geometry"] |}.

End Sample.

(** * Lemmas on the regular expression *)
Section ReLemmas.

Import Re.

#[local] Arguments String.append !_ _ / : simpl nomatch.

Lemma append_assoc (a b c : string) : (a +:+ b) +:+ c = a +:+ (b +:+ c).
Proof. induction a as [|x a IH]; simpl; [reflexivity | now rewrite IH]. Qed.


Lemma word_not_space (c : ascii) : is_word c = true -> is_space c = false.
Proof.
  destruct c as [[] [] [] [] [] [] [] []]; vm_compute; congruence.
Qed.

Lemma word_not_newline (c : ascii) : is_word c = true -> is_newline c = false.
Proof.
  destruct c as [[] [] [] [] [] [] [] []]; vm_compute; congruence.
Qed.

Lemma span_run (p : ascii -> bool) (run rest : string) :
  all_chars p run = true -> stops p rest ->
  span p (run +:+ rest) = (run, rest).
Proof.
  induction run as [|c run IH]; simpl; intros Hall Hstop.
  - destruct rest as [|c rest]; simpl in *; [reflexivity | now rewrite Hstop].
  - apply andb_true_iff in Hall as [Hc Hall].
    rewrite Hc, IH by assumption. reflexivity.
Qed.


Lemma span_split (p : ascii -> bool) (s : string) :
  s = fst (span p s) +:+ snd (span p s).
Proof.
  induction s as [|c s IH]; simpl; [reflexivity |].
  destruct (p c); [| reflexivity].
  destruct (span p s); simpl in *. now rewrite <- IH.
Qed.

Lemma literal_here (lit s : string) : literal lit (lit +:+ s) = Some s.
Proof.
  induction lit as [|a lit IH]; simpl; [now destruct s |].
  now rewrite Ascii.eqb_refl.
Qed.


Lemma nonempty_stops_space (name rest : string) :
  all_chars is_word name = true -> nonempty name = true ->
  stops is_space (name +:+ rest).
Proof.
  destruct name as [|c name]; [discriminate |]. simpl.
  intros H _. apply andb_true_iff in H as [H _]. now apply word_not_space.
Qed.

(** One statement, indented at will, at the front of the text. *)
Lemma match_stmt_hit (kw indent gap name rest : string) :
  stops is_space (kw +:+ gap +:+ name +:+ rest) ->
  all_chars is_space indent = true ->
  all_chars is_space gap = true -> nonempty gap = true ->
  all_chars is_word name = true -> nonempty name = true ->
  ends_word rest = true ->
  match_stmt kw (indent +:+ kw +:+ gap +:+ name +:+ rest) = Some (name, rest).
Proof.
  intros Hkw Hin Hgap Hgap' Hname Hname' Hrest. unfold match_stmt.
  rewrite (span_run _ indent) by assumption.
  rewrite literal_here.
  rewrite (span_run _ gap) by (auto using nonempty_stops_space).
  rewrite Hgap'.
  rewrite (span_run _ name); [now rewrite Hname' | assumption |].
  destruct rest as [|c rest]; simpl in *; [exact I |].
  now apply negb_true_iff.
Qed.






Lemma findall_from_miss (bol : bool) (s : string) :
  search bol s = None -> findall_from bol s = [].
Proof. intros Hs. unfold findall_from. simpl. now rewrite Hs. Qed.


Lemma search_false_line (l t : string) :
  all_chars not_newline l = true ->
  search false (l +:+ nl +:+ t) = search true t.
Proof.
  induction l as [|c l IH]; simpl; intros H; [reflexivity |].
  apply andb_true_iff in H as [Hc H].
  apply negb_true_iff in Hc. rewrite Hc. auto.
Qed.

Lemma search_false_none (l : string) :
  all_chars not_newline l = true -> search false l = None.
Proof.
  induction l as [|c l IH]; simpl; intros H; [reflexivity |].
  apply andb_true_iff in H as [Hc H].
  apply negb_true_iff in Hc. rewrite Hc. auto.
Qed.

Lemma span_stops (p : ascii -> bool) (s : string) : stops p (snd (span p s)).
Proof.
  induction s as [|c s IH]; simpl; [exact I |].
  destruct (p c) eqn:Hc; [| exact Hc].
  now destruct (span p s).
Qed.

Lemma span_all (p : ascii -> bool) (s : string) :
  all_chars p (fst (span p s)) = true.
Proof.
  induction s as [|c s IH]; simpl; [reflexivity |].
  destruct (p c) eqn:Hc; [| reflexivity].
  destruct (span p s); simpl in *. now rewrite Hc.
Qed.

Lemma span_skip (p : ascii -> bool) (run s : string) :
  all_chars p run = true -> snd (span p (run +:+ s)) = snd (span p s).
Proof.
  induction run as [|c run IH]; simpl; intros H; [reflexivity |].
  apply andb_true_iff in H as [Hc H]. rewrite Hc.
  specialize (IH H). now destruct (span p (run +:+ s)).
Qed.

Lemma match_stmt_snd (kw s s' : string) :
  snd (span is_space s) = snd (span is_space s') ->
  match_stmt kw s = match_stmt kw s'.
Proof.
  unfold match_stmt. destruct (span is_space s), (span is_space s'); simpl.
  now intros ->.
Qed.

Lemma match_here_skip (run s : string) :
  all_chars is_space run = true -> match_here (run +:+ s) = match_here s.
Proof.
  intros H. unfold match_here.
  now rewrite !(match_stmt_snd _ (run +:+ s) s) by now apply span_skip.
Qed.

(** A keyword that spans no line end is not completed across one. *)
Lemma literal_line (kw : string) : forall r t,
  all_chars not_newline kw = true ->
  literal kw r = None -> literal kw (r +:+ nl +:+ t) = None.
Proof.
  induction kw as [|a kw IH]; intros r t Hkw; simpl; [now destruct r |].
  apply andb_true_iff in Hkw as [Ha Hkw].
  destruct r as [|c r]; simpl.
  - intros _. destruct (Ascii.eqb_spec a (ascii_of_nat 10)) as [-> |]; [| reflexivity].
    discriminate.
  - destruct (Ascii.eqb a c); [| reflexivity]. now apply IH.
Qed.

Lemma plain_line_no_match (kw l t : string) :
  all_chars not_newline kw = true ->
  nonempty (snd (span is_space l)) = true ->
  literal kw (snd (span is_space l)) = None ->
  match_stmt kw (l +:+ nl +:+ t) = None.
Proof.
  intros Hkw Hne Hlit. unfold match_stmt.
  rewrite (span_split is_space l) at 1. rewrite append_assoc.
  rewrite span_run.
  - now rewrite literal_line.
  - apply span_all.
  - pose proof (span_stops is_space l) as Hs.
    destruct (snd (span is_space l)); [discriminate | exact Hs].
Qed.

(** A plain line is passed over. *)
Lemma plain_line_skip (l t : string) :
  plain_line l = true ->
  search true (l +:+ nl +:+ t) = search true t.
Proof.
  unfold plain_line. intros H. apply andb_true_iff in H as [Hnl H].
  destruct (literal "import" (snd (span is_space l))) eqn:Hi; [discriminate |].
  destruct (literal "from" (snd (span is_space l))) eqn:Hf; [discriminate |].
  clear H.
  assert (Hstep : forall r, search true (l +:+ nl +:+ t) = r ->
            match_here (l +:+ nl +:+ t) = None -> r = search true t).
  { intros r <- Hm. destruct l as [|c l]; simpl in *.
    - rewrite Hm. reflexivity.
    - rewrite Hm. apply andb_true_iff in Hnl as [Hc Hnl].
      apply negb_true_iff in Hc. rewrite Hc.
      now apply search_false_line. }
  destruct (nonempty (snd (span is_space l))) eqn:Hne.
  - apply Hstep; [reflexivity |]. unfold match_here.
    now rewrite !plain_line_no_match.
  - (* a blank line: the run of white space goes on into the next line *)
    assert (Hblank : all_chars is_space (l +:+ nl) = true).
    { rewrite (span_split is_space l).
      destruct (snd (span is_space l)); [| discriminate].
      pose proof (span_all is_space l) as Ha.
      induction (fst (span is_space l)) as [|c w IH]; simpl in *; [reflexivity |].
      apply andb_true_iff in Ha as [-> Ha]. now apply IH. }
    assert (Hm : match_here (l +:+ nl +:+ t) = match_here t).
    { rewrite <- append_assoc. now apply match_here_skip. }
    destruct (match_here t) as [r|] eqn:Ht.
    + destruct l, t; simpl in *; now rewrite ?Hm, ?Ht.
    + now apply Hstep.
Qed.

Lemma plain_lines_skip (ls : list string) (t : string) :
  forallb plain_line ls = true ->
  search true (unlines ls +:+ t) = search true t.
Proof.
  induction ls as [|l ls IH]; intros H; [reflexivity |].
  apply andb_true_iff in H as [Hl H].
  change (unlines (l :: ls)) with (l +:+ nl +:+ unlines ls).
  rewrite !append_assoc, plain_line_skip by assumption. auto.
Qed.




Lemma literal_split (lit : string) : forall s rest,
  literal lit s = Some rest -> s = lit +:+ rest.
Proof.
  induction lit as [|a lit IH]; intros s rest; simpl.
  - destruct s; now intros [= <-].
  - destruct s as [|c s]; [discriminate |].
    destruct (Ascii.eqb_spec a c) as [<- |]; [| discriminate].
    intros H. now rewrite (IH _ _ H).
Qed.

Lemma all_chars_app (p : ascii -> bool) (a b : string) :
  all_chars p (a +:+ b) = all_chars p a && all_chars p b.
Proof.
  induction a as [|c a IH]; simpl; [reflexivity |].
  now rewrite IH, andb_assoc.
Qed.

(** What [match_stmt] returns is a match of [\s*kw\s+(\w+)]: the text
    splits into white space, the keyword, a gap of white space that is not
    empty, and the captured name, which is not empty and goes as far as
    the [\w] characters go. *)
Lemma match_stmt_sound (kw s name rest : string) :
  match_stmt kw s = Some (name, rest) ->
  exists indent gap,
    s = indent +:+ kw +:+ gap +:+ name +:+ rest
    /\ all_chars is_space indent = true
    /\ all_chars is_space gap = true /\ nonempty gap = true
    /\ all_chars is_word name = true /\ nonempty name = true
    /\ stops is_word rest.
Proof.
  unfold match_stmt.
  pose proof (span_split is_space s) as Hs.
  pose proof (span_all is_space s) as Hindent.
  destruct (span is_space s) as [indent s1]; simpl in Hs, Hindent.
  destruct (literal kw s1) as [s2|] eqn:Hlit; [| discriminate].
  apply literal_split in Hlit.
  pose proof (span_split is_space s2) as Hs2.
  pose proof (span_all is_space s2) as Hgap.
  destruct (span is_space s2) as [gap s3]; simpl in Hs2, Hgap.
  destruct (nonempty gap) eqn:Hgap'; [| discriminate].
  pose proof (span_split is_word s3) as Hs3.
  pose proof (span_all is_word s3) as Hname.
  pose proof (span_stops is_word s3) as Hrest.
  destruct (span is_word s3) as [nm s4]; simpl in Hs3, Hname, Hrest.
  destruct (nonempty nm) eqn:Hname'; [| discriminate].
  intros [= <- <-]. exists indent, gap. subst. repeat split; assumption.
Qed.

(** Whenever the text can be split as [\s*kw\s+\w+] followed by anything,
    in whatever way, [match_stmt] succeeds, with the longest name: taking
    the runs greedily loses no match, so the engine never has to
    backtrack. *)
Lemma match_stmt_complete (kw indent gap name rest : string) :
  stops is_space (kw +:+ gap +:+ name +:+ rest) ->
  all_chars is_space indent = true ->
  all_chars is_space gap = true -> nonempty gap = true ->
  all_chars is_word name = true -> nonempty name = true ->
  match_stmt kw (indent +:+ kw +:+ gap +:+ name +:+ rest)
  = Some (name +:+ fst (span is_word rest), snd (span is_word rest)).
Proof.
  intros Hkw Hin Hgap Hgap' Hname Hname'.
  rewrite (span_split is_word rest) at 1.
  rewrite <- (append_assoc name).
  apply match_stmt_hit; auto.
  - rewrite append_assoc, <- span_split. exact Hkw.
  - rewrite all_chars_app, Hname. apply span_all.
  - destruct name; [discriminate | reflexivity].
  - pose proof (span_stops is_word rest) as H.
    unfold ends_word. destruct (snd (span is_word rest)); [reflexivity |].
    simpl in H. now rewrite H.
Qed.

End ReLemmas.

(** The pattern on sample texts, as Python's [re] answers on them. *)

Example findall_alias : Re.findall "import numpy as np" = [("numpy", "")].
Proof. reflexivity. Qed.

Example findall_nested :
  Re.findall ("def f():" +:+ nl +:+ "    import seaborn" +:+ nl) = [("seaborn", "")].
Proof. reflexivity. Qed.

Example findall_gap_spans_lines :
  Re.findall ("import" +:+ nl +:+ "   import seaborn") = [("import", "")].
Proof. reflexivity. Qed.

Example findall_from_and_list :
  Re.findall ("from matplotlib import pyplot as plt" +:+ nl +:+ "import a, b")
  = [("", "matplotlib"); ("a", "")].
Proof. reflexivity. Qed.

Example findall_relative :
  Re.findall (nl +:+ nl +:+ "  import x" +:+ nl +:+ "from . import y" +:+ nl
              +:+ "from .. import z" +:+ nl +:+ "from" +:+ tab +:+ "import" +:+ nl)
  = [("x", ""); ("", "import")].
Proof. reflexivity. Qed.

Example findall_not_at_line_start :
  Re.findall ("x import y" +:+ nl +:+ " import  z;import k") = [("z", "")].
Proof. reflexivity. Qed.

Example findall_cr_is_no_line_start :
  Re.findall ("import os" +:+ cr +:+ "import re") = [("os", "")].
Proof. reflexivity. Qed.

(** * Lemmas on the fixture *)
Section FixtureLemmas.

Context (E : Env).

Lemma with_code_cells_id (st : ClassState) d :
  code_cells st = Some d -> with_code_cells d st = st.
Proof. destruct st; simpl; now intros ->. Qed.

Lemma with_globals_id (st : ClassState) g :
  globals st = Some g -> with_globals g st = st.
Proof. destruct st; simpl; now intros ->. Qed.

Lemma for_each_index (cs : list Cell) : forall i d st,
  code_cells st = Some d ->
  for_each (enumerate_from i cs)
    (fun '(i, cell) => if is_code cell then code_cells_setitem i cell else ret tt) st
  = (with_code_cells (index_code_cells i cs d) st, Ok tt).
Proof.
  induction cs as [|cell cs IH]; intros i d st Hd; simpl.
  - unfold ret. now rewrite with_code_cells_id.
  - unfold bind. destruct (is_code cell).
    + unfold code_cells_setitem. rewrite Hd.
      rewrite (IH _ (<[i:=cell]> d)) by reflexivity. reflexivity.
    + unfold ret. now apply IH.
Qed.

Lemma for_each_exec (cs : list Cell) : forall g st,
  globals st = Some g ->
  for_each cs (fun cell => if is_code cell then exec_cell E cell else ret tt) st
  = (with_globals (fst (run_cells E cs g)) st,
     match snd (run_cells E cs g) with None => Ok tt | Some e => Raise e end).
Proof.
  induction cs as [|cell cs IH]; intros g st Hg; simpl.
  - unfold ret. now rewrite with_globals_id.
  - unfold bind. destruct (is_code cell).
    + unfold exec_cell. rewrite Hg.
      destruct (exec E (source cell) g) as [g' [e|]]; [reflexivity |].
      rewrite (IH g') by reflexivity. reflexivity.
    + unfold ret. now apply IH.
Qed.

(** The fixture on a document that loads, when the executor does not
    raise past [except Exception]. *)
Lemma setUpClass_loaded (nb : Notebook) :
  (forall e, fst (preprocess E nb) = Some e -> is_Exception e = true) ->
  setUpClass E (Ok nb) initial
  = let g := fst (run_cells E (cells nb) ∅) in
    match snd (run_cells E (cells nb) ∅) with
    | None => (with_globals g (executed E nb), Ok tt)
    | Some e =>
        if is_FileNotFoundError e
        then (degraded (with_globals g (executed E nb)), Ok tt)
        else (with_globals g (executed E nb), Raise e)
    end.
Proof.
  intros Hexc. unfold setUpClass, try_except, try_finally, bind, lift, modify,
    cls_notebook_cells.
  cbn [notebook_cells with_code_cells with_notebook initial notebook read rbind].
  unfold enumerate. erewrite for_each_index by reflexivity.
  unfold run_executor, captured_output, executed. cbn -[index_code_cells for_each is_FileNotFoundError].
  destruct (preprocess E nb) as [[e|] out] eqn:Hp; cbn -[index_code_cells for_each is_FileNotFoundError].
  - rewrite (Hexc e) by reflexivity. cbn -[index_code_cells for_each is_FileNotFoundError].
    erewrite for_each_exec by reflexivity.
    destruct (run_cells E (cells nb) ∅) as [g [e'|]]; cbn -[index_code_cells is_FileNotFoundError];
      [destruct (is_FileNotFoundError e') |]; rewrite ?Hp; reflexivity.
  - erewrite for_each_exec by reflexivity.
    destruct (run_cells E (cells nb) ∅) as [g [e'|]]; cbn -[index_code_cells is_FileNotFoundError];
      [destruct (is_FileNotFoundError e') |]; rewrite ?Hp; reflexivity.
Qed.

(** The fixture on a path that does not exist. *)
Lemma setUpClass_missing (e : exn) :
  is_FileNotFoundError e = true ->
  setUpClass E (Raise e) initial = (degraded initial, Ok tt).
Proof.
  intros He. unfold setUpClass, try_except, bind, lift. now rewrite He.
Qed.

End FixtureLemmas.

(** * The import check *)
Section ImportCheck.

#[local] Arguments String.append !_ _ / : simpl nomatch.

Lemma for_all_assertIn (found xs : list string) (msg : string -> string) :
  for_all xs (fun x => assertIn x found (msg x)) = Ok tt
  <-> forall x, x ∈ xs -> x ∈ found.
Proof.
  induction xs as [|x xs IH]; simpl.
  - split; [intros _ y Hy; inversion Hy | reflexivity].
  - unfold assertIn at 1. destruct (bool_decide_reflect (x ∈ found)) as [Hx|Hx]; simpl.
    + rewrite IH. split.
      * intros H y Hy. apply elem_of_cons in Hy as [-> |]; auto.
      * intros H y Hy. apply H. now apply list_elem_of_further.
    + split; [discriminate |]. intros H. exfalso. apply Hx, H, list_elem_of_here.
Qed.






End ImportCheck.





(** * Cells that are not code *)
Section Inert.

Context (E : Env).

Lemma index_code_cells_lookup (cs : list Cell) : forall i d j,
  index_code_cells i cs d !! j
  = match (if decide (i <= j) then cs !! (j - i) else None) with
    | Some cell => if is_code cell then Some cell else d !! j
    | None => d !! j
    end.
Proof.
  induction cs as [|cell cs IH]; intros i d j; simpl.
  - now destruct (decide (i <= j)).
  - rewrite IH. destruct (decide (S i <= j)) as [Hlt|Hge].
    + destruct (decide (i <= j)) as [_|]; [| lia].
      replace (j - i) with (S (j - S i)) by lia. simpl.
      destruct (cs !! (j - S i)) as [c'|]; [destruct (is_code c'); [reflexivity |] |];
        (destruct (is_code cell); [apply lookup_insert_ne; lia | reflexivity]).
    + destruct (decide (i <= j)) as [Hle|Hnle].
      * assert (j = i) as -> by lia. rewrite Nat.sub_diag. simpl.
        destruct (is_code cell); [apply lookup_insert_eq | reflexivity].
      * destruct (is_code cell); [apply lookup_insert_ne; lia | reflexivity].
Qed.

Lemma run_cells_code_only (cs : list Cell) : forall g,
  run_cells E cs g = run_cells E (List.filter is_code cs) g.
Proof.
  induction cs as [|cell cs IH]; intros g; simpl; [reflexivity |].
  destruct (is_code cell) eqn:Hc; simpl; [| apply IH].
  rewrite Hc. destruct (exec E (source cell) g) as [g' [e|]]; [reflexivity | apply IH].
Qed.

Lemma import_statements_code_only (cs : list Cell) :
  import_statements cs = import_statements (List.filter is_code cs).
Proof.
  induction cs as [|cell cs IH]; simpl; [reflexivity |].
  destruct (is_code cell) eqn:Hc; simpl; [| apply IH].
  rewrite Hc. now rewrite IH.
Qed.

(** The fixture when the executor raises past [except Exception]. *)
Lemma setUpClass_interrupted (nb : Notebook) (e : exn) :
  fst (preprocess E nb) = Some e -> is_Exception e = false ->
  setUpClass E (Ok nb) initial = (interrupted E nb, Raise e).
Proof.
  intros Hp He. unfold setUpClass, try_except, try_finally, bind, lift, modify,
    cls_notebook_cells.
  cbn [notebook_cells with_code_cells with_notebook initial notebook read rbind].
  unfold enumerate. erewrite for_each_index by reflexivity.
  unfold run_executor, captured_output.
  cbn -[index_code_cells for_each is_FileNotFoundError].
  rewrite Hp, He.
  cbn -[index_code_cells is_FileNotFoundError].
  assert (is_FileNotFoundError e = false) as ->; [| reflexivity].
  unfold is_FileNotFoundError, is_Exception in *.
  destruct (exn_cls e); try discriminate. reflexivity.
Qed.

(** The index the fixture leaves in [code_cells]. *)
Lemma setUpClass_code_cells (nb : Notebook) :
  code_cells (fst (setUpClass E (Ok nb) initial))
  = Some (index_code_cells 0 (cells nb) ∅).
Proof.
  destruct (fst (preprocess E nb)) as [e|] eqn:He;
    [destruct (is_Exception e) eqn:Hexc |].
  - rewrite setUpClass_loaded by (rewrite He; now intros ? [= <-]).
    cbn zeta. destruct (snd (run_cells E (cells nb) ∅)) as [e'|];
      [destruct (is_FileNotFoundError e') |]; reflexivity.
  - now rewrite (setUpClass_interrupted nb e).
  - rewrite setUpClass_loaded by (rewrite He; discriminate).
    cbn zeta. destruct (snd (run_cells E (cells nb) ∅)) as [e'|];
      [destruct (is_FileNotFoundError e') |]; reflexivity.
Qed.

(** The methods read four things of the class state. *)
Lemma checks_agree (self self' : ClassState) :
  execution_successful self = execution_successful self' ->
  execution_error self = execution_error self' ->
  globals self = globals self' ->
  notebook_cells self = notebook_cells self'
  \/ (exists cs cs', notebook_cells self = Ok cs /\ notebook_cells self' = Ok cs'
                     /\ import_statements cs = import_statements cs') ->
  map (fun check => report (check self)) (checks E)
  = map (fun check => report (check self')) (checks E).
Proof.
  intros Hs He Hg Hnb. unfold checks. cbn [map].
  unfold test_00_notebook_execution, test_02_load_shapefile,
    test_03_describe_geodataframe, test_04_reproject_data,
    test_05_compare_projections.
  rewrite Hs, He, Hg.
  assert (test_01_required_libraries self = test_01_required_libraries self') as ->;
    [| reflexivity].
  unfold test_01_required_libraries.
  destruct Hnb as [-> | (cs & cs' & -> & -> & Hi)]; [reflexivity |].
  cbn [rbind]. now rewrite Hi.
Qed.

Lemma run_suite_code_only (nb nb' : Notebook) :
  List.filter is_code (cells nb) = List.filter is_code (cells nb') ->
  preprocess E nb = preprocess E nb' ->
  run_suite E (Ok nb) = run_suite E (Ok nb').
Proof.
  intros Hcode Hp. unfold run_suite.
  assert (Hrun : run_cells E (cells nb) ∅ = run_cells E (cells nb') ∅).
  { now rewrite (run_cells_code_only (cells nb)), Hcode, <- run_cells_code_only. }
  assert (Himp : import_statements (cells nb) = import_statements (cells nb')).
  { now rewrite (import_statements_code_only (cells nb)), Hcode,
      <- import_statements_code_only. }
  destruct (fst (preprocess E nb)) as [e|] eqn:He.
  - destruct (is_Exception e) eqn:Hexc.
    + rewrite !setUpClass_loaded
        by (intros e0; rewrite <- ?Hp, He; now intros [= <-]).
      rewrite <- Hrun. cbn zeta.
      destruct (snd (run_cells E (cells nb) ∅)) as [e'|];
        [destruct (is_FileNotFoundError e') |]; try reflexivity;
        f_equal; apply checks_agree; unfold executed; cbn; rewrite <- ?Hp; eauto 10.
    + rewrite (setUpClass_interrupted nb e He Hexc).
      rewrite Hp in He.
      now rewrite (setUpClass_interrupted nb' e He Hexc).
  - rewrite !setUpClass_loaded
      by (intros e0; rewrite <- ?Hp, He; discriminate).
    rewrite <- Hrun. cbn zeta.
    destruct (snd (run_cells E (cells nb) ∅)) as [e'|];
      [destruct (is_FileNotFoundError e') |]; try reflexivity;
      f_equal; apply checks_agree; unfold executed; cbn; rewrite <- ?Hp; eauto 10.
Qed.

End Inert.

(** C10.  Cells whose type tag is not [code] take no part in what the
    script does itself.  The index [code_cells] holds, at their positions,
    the code cells and nothing else; the second pass gives the same mapping
    (and stops on the same exception) as on the code cells alone; the import
    scan collects the same names as on the code cells alone.  Hence two
    documents with the same code cells, in the same order, get the same
    report, provided the executor (which is handed the whole document)
    answers alike on them. *)
Theorem non_code_cells_inert (E : Env) (nb : Notebook) :
  (exists index,
      code_cells (fst (setUpClass E (Ok nb) initial)) = Some index
      /\ forall i cell,
           index !! i = Some cell
           <-> cells nb !! i = Some cell /\ cell_type cell = "code")
  /\ (forall g, run_cells E (cells nb) g
                = run_cells E (List.filter is_code (cells nb)) g)
  /\ import_statements (cells nb)
     = import_statements (List.filter is_code (cells nb))
  /\ (forall nb',
        List.filter is_code (cells nb) = List.filter is_code (cells nb') ->
        preprocess E nb = preprocess E nb' ->
        run_suite E (Ok nb) = run_suite E (Ok nb')).
Proof.
  split; [| split; [| split]].
  - exists (index_code_cells 0 (cells nb) ∅).
    split; [apply setUpClass_code_cells |].
    intros i cell. rewrite index_code_cells_lookup.
    destruct (decide (0 <= i)) as [_|]; [| lia]. rewrite Nat.sub_0_r.
    rewrite lookup_empty.
    destruct (cells nb !! i) as [c|]; [| split; [discriminate | now intros [? _]]].
    unfold is_code. destruct (String.eqb_spec (cell_type c) "code") as [Hc|Hc].
    + split; [now intros [= <-] | now intros [[= <-] _]].
    + split; [discriminate | intros [[= <-] ?]; contradiction].
  - apply run_cells_code_only.
  - apply import_statements_code_only.
  - intros nb'. apply run_suite_code_only.
Qed.

Lemma non_code_cells_inert_witness :
  run_suite Sample.world (Ok Sample.submission)
  = run_suite Sample.world (Ok Sample.code_only).
Proof.
  apply (non_code_cells_inert Sample.world Sample.submission); reflexivity.
Defined.

(** * The fixture when something fails *)

(** C1.  On a path that does not exist the fixture returns, and the
    methods run on the state its handler left: [notebook] is [None],
    [execution_successful] is [False], and [globals] was never assigned.
    Only the execution check fails; the import check raises
    [AttributeError] on [None.cells], and the four checks that read
    [self.globals] raise [AttributeError] on the missing attribute. *)
Theorem missing_submission_report (E : Env) (e : exn) :
  is_FileNotFoundError e = true ->
  run_suite E (Raise e)
  = inr [ Failed "Notebook execution failed with error: Unknown error";
          Errored (no_attribute VNone "cells");
          Errored (missing_attribute "globals");
          Errored (missing_attribute "globals");
          Errored (missing_attribute "globals");
          Errored (missing_attribute "globals") ].
Proof.
  intros He. unfold run_suite. rewrite setUpClass_missing by assumption.
  reflexivity.
Qed.

Lemma missing_submission_report_witness :
  run_suite Sample.world (Raise Sample.not_found)
  = inr [ Failed "Notebook execution failed with error: Unknown error";
          Errored (no_attribute VNone "cells");
          Errored (missing_attribute "globals");
          Errored (missing_attribute "globals");
          Errored (missing_attribute "globals");
          Errored (missing_attribute "globals") ].
Proof.
  apply (missing_submission_report Sample.world Sample.not_found). reflexivity.
Defined.

Lemma run_cells_app (E : Env) (pre post : list Cell) : forall g,
  run_cells E (pre ++ post) g
  = match run_cells E pre g with
    | (g', None) => run_cells E post g'
    | stopped => stopped
    end.
Proof.
  induction pre as [|cell pre IH]; intros g; simpl; [reflexivity |].
  destruct (is_code cell); [| apply IH].
  destruct (exec E (source cell) g) as [g' [e|]]; [reflexivity | apply IH].
Qed.

(** C3.  The second pass has no handler of its own.  When the cells before
    [cell] re-execute and the source of [cell] raises [e], the loop stops
    there, [e] leaves [setUpClass] (unless it is a [FileNotFoundError],
    which the handler of line 57 takes for a missing notebook), and no
    method is run. *)
Theorem extraction_failure_escapes (E : Env) (pre post : list Cell)
    (cell : Cell) (g0 g1 : gmap string pyval) (e : exn) :
  (forall e', fst (preprocess E {| cells := pre ++ cell :: post |}) = Some e' ->
              is_Exception e' = true) ->
  run_cells E pre ∅ = (g0, None) ->
  cell_type cell = "code" ->
  exec E (source cell) g0 = (g1, Some e) ->
  is_FileNotFoundError e = false ->
  snd (setUpClass E (Ok {| cells := pre ++ cell :: post |}) initial) = Raise e
  /\ run_suite E (Ok {| cells := pre ++ cell :: post |}) = inl e.
Proof.
  intros Hexc Hpre Hcode Hcell Hfnf. unfold run_suite.
  rewrite setUpClass_loaded by assumption. cbn [cells].
  rewrite run_cells_app, Hpre. cbn [run_cells].
  unfold is_code. rewrite Hcode. cbn [String.eqb Ascii.eqb Bool.eqb].
  rewrite Hcell. cbn [fst snd]. rewrite Hfnf. split; reflexivity.
Qed.

Lemma extraction_failure_escapes_witness :
  snd (setUpClass Sample.world (Ok Sample.failing_submission) initial)
  = Raise (Exn (OtherException "ZeroDivisionError") "division by zero")
  /\ run_suite Sample.world (Ok Sample.failing_submission)
     = inl (Exn (OtherException "ZeroDivisionError") "division by zero").
Proof.
  apply (extraction_failure_escapes Sample.world
           [Sample.code_cell Sample.imports_src] [Sample.code_cell Sample.load_src]
           (Sample.code_cell Sample.division_src) ∅ ∅).
  - discriminate.
  - reflexivity.
  - reflexivity.
  - reflexivity.
  - reflexivity.
Defined.





(** * The content checks *)
Section ContentChecks.

Context (E : Env).

Lemma rbind_Ok {A B} (r : result A) (k : A -> result B) (b : B) :
  rbind r k = Ok b <-> exists a, r = Ok a /\ k a = Ok b.
Proof.
  destruct r as [a|e]; simpl.
  - split; [eauto | now intros (? & [= <-] & ?)].
  - split; [discriminate | now intros (? & ? & _)].
Qed.

Lemma read_Ok {A} (name : string) (field : option A) (v : A) :
  read name field = Ok v <-> field = Some v.
Proof. unfold read. destruct field; split; congruence. Qed.

Lemma assertTrue_Ok (b : bool) (msg : string) (u : unit) :
  assertTrue b msg = Ok u <-> b = true.
Proof. unfold assertTrue, fail. destruct b, u; split; congruence. Qed.


Lemma assertIsInstance_Ok (p : pyval -> bool) (v : pyval) (msg : string) u :
  assertIsInstance p v msg = Ok u <-> p v = true.
Proof. unfold assertIsInstance, fail. destruct (p v), u; split; congruence. Qed.


Lemma assertNotEqual_Ok (a b : pyval) (msg : string) u :
  assertNotEqual E a b msg = Ok u <-> py_ne E a b = Ok true.
Proof.
  unfold assertNotEqual, fail. destruct u, (py_ne E a b) as [[]|]; simpl; split; congruence.
Qed.

Lemma dict_getitem_Ok (d : gmap string pyval) (key : string) (v : pyval) :
  dict_getitem d key = Ok v <-> d !! key = Some v.
Proof. unfold dict_getitem. destruct (d !! key); split; congruence. Qed.


End ContentChecks.




(** C6.  The transformation check passes exactly when the mapping binds
    [tz_projected] to a GeoDataFrame whose reference system compares
    unequal to the one of the value bound to [tz_shapefile], and is a
    projected one. *)
Theorem reprojection_check_iff (E : Env) (self : ClassState) :
  test_04_reproject_data E self = Ok tt
  <-> exists g source projected crs_source crs_projected,
        globals self = Some g
        /\ g !! "tz_projected" = Some (VGeoDataFrame projected)
        /\ g !! "tz_shapefile" = Some source
        /\ getattr_crs source = Ok crs_source
        /\ py_ne E crs_source (crs_value (gdf_crs projected)) = Ok true
        /\ gdf_crs projected = Some crs_projected
        /\ is_projected crs_projected = true.
Proof.
  unfold test_04_reproject_data. split.
  - intros H.
    apply rbind_Ok in H as (g & Hg%read_Ok & H).
    apply rbind_Ok in H as ([] & _ & H).
    apply rbind_Ok in H as (s & Hs%dict_getitem_Ok & H).
    apply rbind_Ok in H as (p & Hp%dict_getitem_Ok & H).
    change (gpd "GeoDataFrame") with (Ok (A:=unit) tt) in H. cbn [rbind] in H.
    apply rbind_Ok in H as ([] & Hinst%assertIsInstance_Ok & H).
    destruct p as [| | | | | |p| | |]; try discriminate.
    apply rbind_Ok in H as (cs & Hcs & H).
    cbn [getattr_crs rbind] in H.
    apply rbind_Ok in H as ([] & Hne%assertNotEqual_Ok & H).
    apply rbind_Ok in H as (b & Hb & H). apply assertTrue_Ok in H as ->.
    destruct (gdf_crs p) as [c|] eqn:Hc; [| discriminate].
    injection Hb as Hb.
    exists g, s, p, cs, c. rewrite Hc. repeat split; assumption.
  - intros (g & s & p & cs & c & Hg & Hp & Hs & Hcs & Hne & Hc & Hproj).
    rewrite Hg. cbn [read rbind].
    unfold assertInDict. rewrite Hp, bool_decide_true by eauto. cbn [rbind].
    unfold dict_getitem. rewrite Hs, Hp. cbn [rbind].
    change (gpd "GeoDataFrame") with (Ok (A:=unit) tt).
    cbn [rbind assertIsInstance is_GeoDataFrame]. rewrite Hcs.
    cbn [rbind getattr_crs].
    apply (assertNotEqual_Ok E _ _ "The CRS should be changed after reprojection" tt) in Hne.
    rewrite Hne, Hc. cbn [rbind crs_value getattr_is_projected]. now rewrite Hproj.
Qed.

Lemma reprojection_check_iff_witness :
  exists g source projected crs_source crs_projected,
    globals Sample.loaded = Some g
    /\ g !! "tz_projected" = Some (VGeoDataFrame projected)
    /\ g !! "tz_shapefile" = Some source
    /\ getattr_crs source = Ok crs_source
    /\ py_ne Sample.world crs_source (crs_value (gdf_crs projected)) = Ok true
    /\ gdf_crs projected = Some crs_projected
    /\ is_projected crs_projected = true.
Proof.
  apply (reprojection_check_iff Sample.world Sample.loaded). vm_compute. reflexivity.
Defined.

(** C7.  The fixture of [test_05_compare_projections] is never built:
    [gpd.box] raises [AttributeError], because [geopandas] binds no [box].
    Whenever the mapping binds [compare_projections] the method ends in
    that error before the function is called, and the method passes in no
    state at all. *)
Theorem compare_projections_fixture_fails (E : Env) (self : ClassState) :
  (forall g f,
      globals self = Some g -> g !! "compare_projections" = Some f ->
      test_05_compare_projections E self
      = Raise (Exn AttributeError "module 'geopandas' has no attribute 'box'"))
  /\ test_05_compare_projections E self <> Ok tt.
Proof.
  split.
  - intros g f Hg Hf. unfold test_05_compare_projections.
    rewrite Hg. cbn [read rbind].
    unfold assertInDict. rewrite Hf, bool_decide_true by eauto. cbn [rbind].
    unfold dict_getitem. rewrite Hf. reflexivity.
  - unfold test_05_compare_projections. intros H.
    apply rbind_Ok in H as (g & _ & H).
    apply rbind_Ok in H as ([] & _ & H).
    apply rbind_Ok in H as (f & _ & H).
    discriminate.
Qed.

Lemma compare_projections_fixture_fails_witness :
  test_05_compare_projections Sample.world Sample.loaded
  = Raise (Exn AttributeError "module 'geopandas' has no attribute 'box'").
Proof.
  destruct (compare_projections_fixture_fails Sample.world Sample.loaded) as [H _].
  apply (H (<["compare_projections" := VFunction 1]>
             (<["describe_geodataframe" := VFunction 0]>
             (<["tz_projected" := VGeoDataFrame Sample.tz_projected]>
             (<["tz_shapefile" := VGeoDataFrame Sample.tz_shapefile]> ∅))))
           (VFunction 1)).
  - reflexivity.
  - reflexivity.
Defined.

(** C8.  The transformation check asserts that [tz_projected] is bound and
    then reads [self.globals['tz_shapefile']] without such an assertion:
    when [tz_shapefile] is not bound the method raises [KeyError], which
    the runner reports as an error and not as a failed check. *)
Theorem reprojection_check_missing_source (E : Env) (self : ClassState)
    (g : gmap string pyval) (projected : pyval) :
  globals self = Some g ->
  g !! "tz_projected" = Some projected ->
  g !! "tz_shapefile" = None ->
  test_04_reproject_data E self = Raise (Exn KeyError "'tz_shapefile'")
  /\ report (test_04_reproject_data E self)
     = Errored (Exn KeyError "'tz_shapefile'").
Proof.
  intros Hg Hp Hs.
  assert (H : test_04_reproject_data E self = Raise (Exn KeyError "'tz_shapefile'")).
  { unfold test_04_reproject_data. rewrite Hg. cbn [read rbind].
    unfold assertInDict. rewrite Hp, bool_decide_true by eauto. cbn [rbind].
    unfold dict_getitem. rewrite Hs. reflexivity. }
  split; [exact H | now rewrite H].
Qed.

Lemma reprojection_check_missing_source_witness :
  test_04_reproject_data Sample.world Sample.projected_only
  = Raise (Exn KeyError "'tz_shapefile'")
  /\ report (test_04_reproject_data Sample.world Sample.projected_only)
     = Errored (Exn KeyError "'tz_shapefile'").
Proof.
  apply (reprojection_check_missing_source Sample.world Sample.projected_only
           (<["tz_projected" := VGeoDataFrame Sample.tz_projected]> ∅)
           (VGeoDataFrame Sample.tz_projected)).
  - reflexivity.
  - reflexivity.
  - reflexivity.
Defined.

(** * Further properties of the fixture *)

(** X1.  Only [FileNotFoundError] is tolerated when the notebook is loaded.
    Any other exception of [open] or [nbformat.read] (a file that is not a
    notebook, a directory, a permission error) leaves [setUpClass] with no
    attribute assigned and nothing printed, and no method is run. *)
Theorem load_error_escapes (E : Env) (e : exn) :
  is_FileNotFoundError e = false ->
  setUpClass E (Raise e) initial = (initial, Raise e)
  /\ run_suite E (Raise e) = inl e.
Proof.
  intros He. unfold run_suite.
  assert (H : setUpClass E (Raise e) initial = (initial, Raise e)).
  { unfold setUpClass, try_except, bind, lift. now rewrite He. }
  now rewrite H.
Qed.

Lemma load_error_escapes_witness :
  setUpClass Sample.world (Raise Sample.not_json) initial
  = (initial, Raise Sample.not_json)
  /\ run_suite Sample.world (Raise Sample.not_json) = inl Sample.not_json.
Proof.
  apply (load_error_escapes Sample.world Sample.not_json). reflexivity.
Defined.

(** The three ways the fixture ends on a document that loads. *)
Lemma setUpClass_cases (E : Env) (nb : Notebook) :
  let g := fst (run_cells E (cells nb) ∅) in
  (exists e, fst (preprocess E nb) = Some e /\ is_Exception e = false
             /\ setUpClass E (Ok nb) initial = (interrupted E nb, Raise e))
  \/ (snd (run_cells E (cells nb) ∅) = None
      /\ setUpClass E (Ok nb) initial = (with_globals g (executed E nb), Ok tt))
  \/ (exists e, snd (run_cells E (cells nb) ∅) = Some e
                /\ is_FileNotFoundError e = true
                /\ setUpClass E (Ok nb) initial
                   = (degraded (with_globals g (executed E nb)), Ok tt))
  \/ (exists e, snd (run_cells E (cells nb) ∅) = Some e
                /\ is_FileNotFoundError e = false
                /\ setUpClass E (Ok nb) initial
                   = (with_globals g (executed E nb), Raise e)).
Proof.
  intros g.
  assert (Hcase : (exists e, fst (preprocess E nb) = Some e /\ is_Exception e = false)
                  \/ (forall e, fst (preprocess E nb) = Some e -> is_Exception e = true)).
  { destruct (fst (preprocess E nb)) as [e|]; [| right; discriminate].
    destruct (is_Exception e) eqn:He; [right; now intros ? [= <-] | left; eauto]. }
  destruct Hcase as [(e & Hp & He) | Hexc].
  - left. exists e. auto using setUpClass_interrupted.
  - right. rewrite (setUpClass_loaded E nb Hexc). cbn zeta. fold g.
    destruct (snd (run_cells E (cells nb) ∅)) as [e|]; [| left; auto].
    right. destruct (is_FileNotFoundError e) eqn:He; [left | right]; eauto.
Qed.

(** X2.  The [finally] clause of lines 46 to 49 runs on every way out of
    the executor: whenever the document loads, [execution_output] holds
    what the executor wrote, whether it returned, raised an [Exception], or
    was interrupted, and whatever the second pass does afterwards. *)
Theorem output_always_captured (E : Env) (nb : Notebook) :
  execution_output (fst (setUpClass E (Ok nb) initial))
  = Some (snd (preprocess E nb)).
Proof.
  destruct (setUpClass_cases E nb) as
    [(e & _ & _ & ->) | [[_ ->] | [(e & _ & _ & ->) | (e & _ & _ & ->)]]];
    reflexivity.
Qed.

(** X3.  [except Exception] does not catch an exception that is no
    [Exception] (a [KeyboardInterrupt], a [SystemExit]).  Such an exception
    of the executor leaves [setUpClass]; [execution_successful] and
    [execution_error] are never assigned, the second pass does not run
    ([globals] is never assigned), and no method is run. *)
Theorem executor_interrupt_escapes (E : Env) (nb : Notebook) (e : exn) :
  fst (preprocess E nb) = Some e -> is_Exception e = false ->
  snd (setUpClass E (Ok nb) initial) = Raise e
  /\ execution_successful (fst (setUpClass E (Ok nb) initial)) = None
  /\ execution_error (fst (setUpClass E (Ok nb) initial)) = None
  /\ globals (fst (setUpClass E (Ok nb) initial)) = None
  /\ run_suite E (Ok nb) = inl e.
Proof.
  intros Hp He. unfold run_suite.
  rewrite (setUpClass_interrupted E nb e Hp He). repeat split; reflexivity.
Qed.

Lemma executor_interrupt_escapes_witness :
  snd (setUpClass Sample.interrupted_world (Ok Sample.submission) initial)
  = Raise Sample.interrupt
  /\ execution_successful
       (fst (setUpClass Sample.interrupted_world (Ok Sample.submission) initial)) = None
  /\ execution_error
       (fst (setUpClass Sample.interrupted_world (Ok Sample.submission) initial)) = None
  /\ globals
       (fst (setUpClass Sample.interrupted_world (Ok Sample.submission) initial)) = None
  /\ run_suite Sample.interrupted_world (Ok Sample.submission) = inl Sample.interrupt.
Proof.
  apply (executor_interrupt_escapes Sample.interrupted_world Sample.submission
           Sample.interrupt); reflexivity.
Defined.

(** X4.  A [FileNotFoundError] raised by a cell in the second pass is caught
    by the handler of line 57 and taken for a missing notebook: the fixture
    prints the not-found message and returns, [notebook] is reset to [None]
    and [execution_successful] to [False] even when the executor succeeded,
    and [globals] keeps what was bound up to the failing cell.  The
    execution check then fails and the import check raises
    [AttributeError]. *)
Theorem cell_file_not_found_taken_for_missing (E : Env) (nb : Notebook) (e : exn) :
  (forall e', fst (preprocess E nb) = Some e' -> is_Exception e' = true) ->
  snd (run_cells E (cells nb) ∅) = Some e ->
  is_FileNotFoundError e = true ->
  let self := fst (setUpClass E (Ok nb) initial) in
  snd (setUpClass E (Ok nb) initial) = Ok tt
  /\ console self = ["Student submission notebook not found."]
  /\ notebook self = Some None
  /\ execution_successful self = Some false
  /\ globals self = Some (fst (run_cells E (cells nb) ∅))
  /\ report (test_00_notebook_execution self)
     = Failed ("Notebook execution failed with error: "
               +:+ default "Unknown error" (exn_msg <$> fst (preprocess E nb)))
  /\ test_01_required_libraries self = Raise (no_attribute VNone "cells").
Proof.
  intros Hexc Hrun He self. subst self.
  rewrite (setUpClass_loaded E nb Hexc). cbn zeta. rewrite Hrun, He.
  repeat split; reflexivity.
Qed.

Lemma cell_file_not_found_taken_for_missing_witness :
  let self := fst (setUpClass Sample.offline_world (Ok Sample.data_submission) initial) in
  snd (setUpClass Sample.offline_world (Ok Sample.data_submission) initial) = Ok tt
  /\ console self = ["Student submission notebook not found."]
  /\ notebook self = Some None
  /\ execution_successful self = Some false
  /\ globals self
     = Some (fst (run_cells Sample.offline_world (cells Sample.data_submission) ∅))
  /\ report (test_00_notebook_execution self)
     = Failed ("Notebook execution failed with error: "
               +:+ default "Unknown error"
                     (exn_msg <$> fst (preprocess Sample.offline_world
                                                  Sample.data_submission)))
  /\ test_01_required_libraries self = Raise (no_attribute VNone "cells").
Proof.
  apply (cell_file_not_found_taken_for_missing Sample.offline_world
           Sample.data_submission Sample.data_not_found).
  - discriminate.
  - reflexivity.
  - reflexivity.
Defined.

(** X5.  The second pass stops at the first cell that raises: when the
    cells before [cell] re-execute and [cell] raises, [globals] is the
    mapping that cell left, whatever cells come after it; they are not
    executed. *)
Theorem second_pass_stops_at_failure (E : Env) (pre post : list Cell)
    (cell : Cell) (g0 g1 : gmap string pyval) (e : exn) :
  (forall e', fst (preprocess E {| cells := pre ++ cell :: post |}) = Some e' ->
              is_Exception e' = true) ->
  run_cells E pre ∅ = (g0, None) ->
  cell_type cell = "code" ->
  exec E (source cell) g0 = (g1, Some e) ->
  globals (fst (setUpClass E (Ok {| cells := pre ++ cell :: post |}) initial))
  = Some g1.
Proof.
  intros Hexc Hpre Hcode Hcell.
  rewrite setUpClass_loaded by assumption. cbn [cells].
  rewrite run_cells_app, Hpre. cbn [run_cells].
  unfold is_code. rewrite Hcode. cbn [String.eqb Ascii.eqb Bool.eqb].
  rewrite Hcell. cbn [fst snd]. destruct (is_FileNotFoundError e); reflexivity.
Qed.

Lemma second_pass_stops_at_failure_witness :
  globals (fst (setUpClass Sample.offline_world (Ok Sample.data_submission) initial))
  = Some (<["tz_projected" := VGeoDataFrame Sample.tz_projected]>
            (<["tz_shapefile" := VGeoDataFrame Sample.tz_shapefile]> ∅)).
Proof.
  apply (second_pass_stops_at_failure Sample.offline_world
           [Sample.code_cell Sample.load_src] [Sample.code_cell Sample.functions_src]
           (Sample.code_cell Sample.read_data_src)
           (<["tz_projected" := VGeoDataFrame Sample.tz_projected]>
              (<["tz_shapefile" := VGeoDataFrame Sample.tz_shapefile]> ∅))
           _ Sample.data_not_found).
  - discriminate.
  - reflexivity.
  - reflexivity.
  - reflexivity.
Defined.

(** X6.  When the fixture returns on a document that loads, the execution
    check passes exactly when the executor raised nothing and no cell
    raised in the second pass; a [FileNotFoundError] of a cell fails the
    execution check although the notebook executed. *)
Theorem execution_check_after_fixture (E : Env) (nb : Notebook) (self : ClassState) :
  setUpClass E (Ok nb) initial = (self, Ok tt) ->
  (test_00_notebook_execution self = Ok tt
   <-> fst (preprocess E nb) = None /\ snd (run_cells E (cells nb) ∅) = None).
Proof.
  intros Hset.
  destruct (setUpClass_cases E nb) as
    [(e & _ & _ & H) | [[Hrun H] | [(e & Hrun & _ & H) | (e & _ & _ & H)]]];
    rewrite H in Hset; try discriminate; injection Hset as <-.
  - unfold test_00_notebook_execution, executed. cbn.
    destruct (fst (preprocess E nb)); cbn; split; try tauto; try discriminate.
    now intros [? _].
  - rewrite Hrun. split; [discriminate | now intros [_ ?]].
Qed.

Lemma execution_check_after_fixture_witness :
  test_00_notebook_execution Sample.loaded = Ok tt
  <-> fst (preprocess Sample.world Sample.submission) = None
      /\ snd (run_cells Sample.world (cells Sample.submission) ∅) = None.
Proof.
  apply (execution_check_after_fixture Sample.world Sample.submission Sample.loaded).
  reflexivity.
Defined.

(** X7.  When the fixture returns on a document that loads, every
    attribute the methods read without a default is assigned:
    [notebook], [execution_successful] and [globals] (and [code_cells] and
    [execution_output] as well). *)
Theorem fixture_assigns_attributes (E : Env) (nb : Notebook) (self : ClassState) :
  setUpClass E (Ok nb) initial = (self, Ok tt) ->
  is_Some (notebook self) /\ is_Some (execution_successful self)
  /\ is_Some (globals self) /\ is_Some (code_cells self)
  /\ is_Some (execution_output self).
Proof.
  intros Hset.
  destruct (setUpClass_cases E nb) as
    [(e & _ & _ & H) | [[Hrun H] | [(e & Hrun & _ & H) | (e & _ & _ & H)]]];
    rewrite H in Hset; try discriminate; injection Hset as <-;
    repeat split; cbn; eauto.
Qed.

Lemma fixture_assigns_attributes_witness :
  is_Some (notebook Sample.loaded) /\ is_Some (execution_successful Sample.loaded)
  /\ is_Some (globals Sample.loaded) /\ is_Some (code_cells Sample.loaded)
  /\ is_Some (execution_output Sample.loaded).
Proof.
  apply (fixture_assigns_attributes Sample.world Sample.submission Sample.loaded).
  reflexivity.
Defined.

(** * Further properties of the import scan *)
Section ScanLemmas.

Import Re.

#[local] Arguments String.append !_ _ / : simpl nomatch.

Lemma append_empty (s : string) : s +:+ "" = s.
Proof. induction s as [|c s IH]; simpl; [reflexivity | now rewrite IH]. Qed.

(** The groups of a match: one of them is the name, the other is empty. *)
Lemma match_here_groups (s : string) (groups : string * string) (rest : string) :
  match_here s = Some (groups, rest) ->
  exists name,
    (groups = (name, "") \/ groups = ("", name))
    /\ all_chars is_word name = true /\ nonempty name = true.
Proof.
  unfold match_here.
  destruct (match_stmt "import" s) as [[n r]|] eqn:H1.
  - intros [= <- <-]. apply match_stmt_sound in H1 as (? & ? & _ & _ & _ & _ & ? & ? & _).
    eauto.
  - destruct (match_stmt "from" s) as [[n r]|] eqn:H2; [| discriminate].
    intros [= <- <-]. apply match_stmt_sound in H2 as (? & ? & _ & _ & _ & _ & ? & ? & _).
    eauto.
Qed.

Lemma search_groups (s : string) : forall bol groups rest,
  search bol s = Some (groups, rest) ->
  exists name,
    (groups = (name, "") \/ groups = ("", name))
    /\ all_chars is_word name = true /\ nonempty name = true.
Proof.
  induction s as [|c s IH]; intros bol groups rest; cbn [search].
  - destruct bol; [| discriminate].
    destruct (match_here "") as [[g r]|] eqn:H; [| discriminate].
    intros [= <- <-]. eauto using match_here_groups.
  - destruct (if bol then match_here (String c s) else None) as [[g r]|] eqn:H.
    + intros [= <- <-]. destruct bol; [| discriminate]. eauto using match_here_groups.
    + apply IH.
Qed.

Lemma findall_fuel_groups (fuel : nat) : forall bol s groups,
  In groups (findall_fuel fuel bol s) ->
  exists name,
    (groups = (name, "") \/ groups = ("", name))
    /\ all_chars is_word name = true /\ nonempty name = true.
Proof.
  induction fuel as [|fuel IH]; intros bol s groups; cbn [findall_fuel]; [intros [] |].
  destruct (search bol s) as [[g rest]|] eqn:Hs; [| intros []].
  intros [<- | Hin]; [eauto using search_groups | eauto].
Qed.

Lemma plain_line_alone (l : string) :
  plain_line l = true -> search true l = None.
Proof.
  unfold plain_line. intros H. apply andb_true_iff in H as [Hnl H].
  destruct (literal "import" (snd (span is_space l))) eqn:Hi; [discriminate |].
  destruct (literal "from" (snd (span is_space l))) eqn:Hf; [discriminate |].
  assert (Hm : match_here l = None).
  { unfold match_here, match_stmt. destruct (span is_space l) as [ws r].
    cbn [snd] in Hi, Hf. now rewrite Hi, Hf. }
  destruct l as [|c l]; cbn [search]; rewrite Hm; [reflexivity |].
  simpl in Hnl. apply andb_true_iff in Hnl as [Hc Hnl].
  apply negb_true_iff in Hc. rewrite Hc. now apply search_false_none.
Qed.

End ScanLemmas.

(** X8.  Every identifier the import scan collects is a non-empty run of
    [\w] characters: no empty group of a match, no dotted path, no relative
    module ([.] or [..]) and no alias clause ever enters
    [import_statements]. *)
Theorem captured_names_are_words (cs : list Cell) (lib : string) :
  lib ∈ import_statements cs ->
  Re.nonempty lib = true /\ all_chars Re.is_word lib = true.
Proof.
  unfold import_statements. rewrite list_elem_of_In, in_flat_map.
  intros (cell & _ & Hlib). destruct (is_code cell); [| destruct Hlib].
  unfold imports_of in Hlib. apply in_flat_map in Hlib as (groups & Hg & Hlib).
  apply findall_fuel_groups in Hg as (name & Hgroups & Hword & Hne).
  unfold kept in Hlib. apply filter_In in Hlib as [Hlib Hlib'].
  destruct Hgroups as [-> | ->]; simpl in Hlib;
    destruct Hlib as [<- | [<- | []]]; auto; discriminate.
Qed.

Lemma captured_names_are_words_witness :
  Re.nonempty "matplotlib" = true /\ all_chars Re.is_word "matplotlib" = true.
Proof.
  apply (captured_names_are_words (cells Sample.submission) "matplotlib").
  vm_compute. repeat constructor.
Defined.

(** X9.  The pattern is anchored at line starts: a text none of whose lines
    goes on, after its leading white space, with [import] or [from] yields
    no identifier, wherever else in its lines those words occur (after a
    semicolon, in a comment, in a string). *)
Theorem plain_text_yields_nothing (ls : list string) (l : string) :
  forallb plain_line ls = true -> plain_line l = true ->
  imports_of (unlines ls +:+ l) = [].
Proof.
  intros Hls Hl. unfold imports_of, Re.findall.
  rewrite findall_from_miss; [reflexivity |].
  rewrite plain_lines_skip by assumption. now apply plain_line_alone.
Qed.

Lemma plain_text_yields_nothing_witness :
  imports_of (unlines ["x = 1; import seaborn"; "# import folium"; ""]
              +:+ "print('from numpy import pi')") = [].
Proof.
  apply (plain_text_yields_nothing
           ["x = 1; import seaborn"; "# import folium"; ""]
           "print('from numpy import pi')"); reflexivity.
Defined.

Section KeywordLemmas.

Import Re.

#[local] Arguments String.append !_ _ / : simpl nomatch.

Lemma match_stmt_no_name (kw indent gap rest : string) :
  stops is_space (kw +:+ gap +:+ rest) ->
  all_chars is_space indent = true -> all_chars is_space gap = true ->
  stops is_space rest ->
  nonempty gap = false \/ stops is_word rest ->
  match_stmt kw (indent +:+ kw +:+ gap +:+ rest) = None.
Proof.
  intros Hkw Hin Hgap Hrest Hwhy. unfold match_stmt.
  rewrite (span_run _ indent) by assumption.
  rewrite literal_here.
  rewrite (span_run _ gap) by assumption.
  destruct (nonempty gap) eqn:Hg; [| reflexivity].
  destruct Hwhy as [| Hword]; [discriminate |].
  change rest with ("" +:+ rest) at 1.
  rewrite (span_run is_word "" rest) by auto. reflexivity.
Qed.

Lemma match_stmt_other_keyword (kw kw' indent tail : string) :
  stops is_space (kw +:+ tail) ->
  all_chars is_space indent = true ->
  literal kw' (kw +:+ tail) = None ->
  match_stmt kw' (indent +:+ kw +:+ tail) = None.
Proof.
  intros Hkw Hin Hlit. unfold match_stmt.
  rewrite (span_run _ indent) by assumption. now rewrite Hlit.
Qed.

Lemma search_one_line (s : string) :
  all_chars not_newline s = true -> match_here s = None -> search true s = None.
Proof.
  intros Hnl Hm. destruct s as [|c s]; cbn [search]; rewrite Hm; [reflexivity |].
  simpl in Hnl. apply andb_true_iff in Hnl as [Hc Hnl].
  apply negb_true_iff in Hc. rewrite Hc. now apply search_false_none.
Qed.

End KeywordLemmas.

(** X10.  A keyword counts only when white space and then a name follow
    it.  A line that goes on after [import] or [from] without a gap
    ([importlib.reload(m)], [from_crs = 4326], a bare [import]), or whose
    gap is followed by something that is no [\w] character (the relative
    import [from . import x]), yields no identifier. *)
Theorem keyword_needs_gap_and_name (kw indent gap rest : string) :
  kw = "import" \/ kw = "from" ->
  all_chars Re.is_space indent = true -> all_chars Re.is_space gap = true ->
  stops Re.is_space rest ->
  Re.nonempty gap = false \/ stops Re.is_word rest ->
  all_chars not_newline (indent +:+ kw +:+ gap +:+ rest) = true ->
  imports_of (indent +:+ kw +:+ gap +:+ rest) = [].
Proof.
  intros Hkw Hin Hgap Hrest Hwhy Hline. unfold imports_of, Re.findall.
  rewrite findall_from_miss; [reflexivity |].
  apply search_one_line; [assumption |]. unfold Re.match_here.
  assert (Hi : forall tail, stops Re.is_space ("import" +:+ tail))
    by (intros; reflexivity).
  assert (Hf : forall tail, stops Re.is_space ("from" +:+ tail))
    by (intros; reflexivity).
  destruct Hkw as [-> | ->].
  - rewrite match_stmt_no_name by auto.
    rewrite match_stmt_other_keyword; first [solve [auto] | reflexivity].
  - rewrite match_stmt_other_keyword by first [solve [auto] | reflexivity].
    rewrite match_stmt_no_name; auto.
Qed.

Lemma keyword_needs_gap_and_name_witness :
  imports_of ("    " +:+ "from" +:+ " " +:+ ". import helpers") = []
  /\ imports_of ("" +:+ "import" +:+ "" +:+ "lib.reload(helpers)") = [].
Proof.
  split.
  - apply (keyword_needs_gap_and_name "from" "    " " " ". import helpers").
    + right. reflexivity.
    + reflexivity.
    + reflexivity.
    + reflexivity.
    + right. reflexivity.
    + reflexivity.
  - apply (keyword_needs_gap_and_name "import" "" "" "lib.reload(helpers)").
    + left. reflexivity.
    + reflexivity.
    + reflexivity.
    + reflexivity.
    + left. reflexivity.
    + reflexivity.
Defined.

Lemma for_all_assertIn_first_missing (found pre post : list string) (x : string)
    (msg : string -> string) :
  (forall y, y ∈ pre -> y ∈ found) -> x ∉ found ->
  for_all (pre ++ x :: post)%list (fun y => assertIn y found (msg y)) = fail (msg x).
Proof.
  intros Hpre Hx. induction pre as [|y pre IH]; cbn [app for_all].
  - unfold assertIn at 1. now rewrite bool_decide_false.
  - unfold assertIn at 1. rewrite bool_decide_true by (apply Hpre; constructor).
    cbn [rbind]. apply IH. intros z Hz. apply Hpre. now constructor.
Qed.

(** X11.  When the notebook is loaded and some required library is not
    among the collected identifiers, the import check fails (it does not
    raise anything else), and its message names the first such library in
    the order of the list [required_libraries]; later missing libraries are
    not reported. *)
Theorem import_check_names_first_missing (self : ClassState) (nb : Notebook)
    (before after : list string) (lib : string) :
  notebook self = Some (Some nb) ->
  required_libraries = (before ++ lib :: after)%list ->
  (forall x, x ∈ before -> x ∈ import_statements (cells nb)) ->
  lib ∉ import_statements (cells nb) ->
  test_01_required_libraries self
  = Raise (Exn AssertionError ("Required library '" +:+ lib +:+ "' is not imported")).
Proof.
  intros Hnb Hreq Hbefore Hlib.
  unfold test_01_required_libraries, notebook_cells. rewrite Hnb.
  cbn [read rbind]. rewrite Hreq.
  apply (for_all_assertIn_first_missing (import_statements (cells nb)) before after lib
           (fun lib => "Required library '" +:+ lib +:+ "' is not imported"));
    assumption.
Qed.

Lemma import_check_names_first_missing_witness :
  test_01_required_libraries
    (fst (setUpClass Sample.world (Ok Sample.comma_submission) initial))
  = Raise (Exn AssertionError "Required library 'pandas' is not imported").
Proof.
  apply (import_check_names_first_missing _ Sample.comma_submission
           ["geopandas"] ["numpy"; "matplotlib"; "seaborn"; "folium"; "contextily"]
           "pandas").
  - reflexivity.
  - reflexivity.
  - intros x Hx. apply list_elem_of_singleton in Hx as ->.
    vm_compute. constructor.
  - vm_compute. intros H. apply list_elem_of_singleton in H. discriminate.
Defined.

(** * Further properties of the content checks *)

(** X12.  The data-load check passes exactly when the mapping binds
    [tz_shapefile] to a GeoDataFrame that has at least one row and a column
    named [geometry]. *)
Theorem load_check_iff (self : ClassState) :
  test_02_load_shapefile self = Ok tt
  <-> exists g table,
        globals self = Some g
        /\ g !! "tz_shapefile" = Some (VGeoDataFrame table)
        /\ 0 < gdf_len table
        /\ "geometry" ∈ columns table.
Proof.
  unfold test_02_load_shapefile. split.
  - intros H.
    apply rbind_Ok in H as (g & Hg%read_Ok & H).
    apply rbind_Ok in H as ([] & _ & H).
    apply rbind_Ok in H as (v & Hv%dict_getitem_Ok & H).
    change (gpd "GeoDataFrame") with (Ok (A:=unit) tt) in H. cbn [rbind] in H.
    apply rbind_Ok in H as ([] & Hinst%assertIsInstance_Ok & H).
    destruct v as [| | | | | |t| | |]; try discriminate.
    unfold dict_getitem in H. rewrite Hv in H. cbn [rbind py_len getattr_columns] in H.
    apply rbind_Ok in H as ([] & Hlen & H).
    unfold assertGreater in Hlen. destruct (Nat.ltb_spec 0 (gdf_len t)); [| discriminate].
    unfold assertIn in H. destruct (bool_decide_reflect ("geometry" ∈ columns t));
      [| discriminate].
    exists g, t. auto.
  - intros (g & t & Hg & Hv & Hlen & Hcol).
    rewrite Hg. cbn [read rbind].
    unfold assertInDict. rewrite Hv, bool_decide_true by eauto. cbn [rbind].
    unfold dict_getitem. rewrite Hv. cbn [rbind].
    change (gpd "GeoDataFrame") with (Ok (A:=unit) tt).
    cbn [rbind assertIsInstance is_GeoDataFrame py_len getattr_columns].
    unfold assertGreater. destruct (Nat.ltb_spec 0 (gdf_len t)); [| lia].
    cbn [rbind]. unfold assertIn. now rewrite bool_decide_true.
Qed.

Lemma load_check_iff_witness :
  exists g table,
    globals Sample.loaded = Some g
    /\ g !! "tz_shapefile" = Some (VGeoDataFrame table)
    /\ 0 < gdf_len table
    /\ "geometry" ∈ columns table.
Proof.
  apply load_check_iff. vm_compute. reflexivity.
Defined.

(** X13.  Once [globals] is assigned, the data-load check never raises
    anything but [AssertionError]: every way of falling short is a failure
    whose message names the first requirement that is not met, in the order
    presence of the name, type, rows, geometry column. *)
Theorem load_check_only_fails (self : ClassState) (g : gmap string pyval) :
  globals self = Some g ->
  test_02_load_shapefile self
  = match g !! "tz_shapefile" with
    | None => fail "Tanzania shapefile variable 'tz_shapefile' not found"
    | Some (VGeoDataFrame table) =>
        if (gdf_len table =? 0)%nat
        then fail "Tanzania shapefile should not be empty"
        else if bool_decide ("geometry" ∈ columns table) then Ok tt
             else fail "Tanzania shapefile should have a 'geometry' column"
    | Some _ => fail "Tanzania shapefile should be a GeoDataFrame"
    end.
Proof.
  intros Hg. unfold test_02_load_shapefile. rewrite Hg. cbn [read rbind].
  unfold assertInDict, dict_getitem.
  destruct (g !! "tz_shapefile") as [v|] eqn:Hv.
  - rewrite bool_decide_true by eauto. cbn [rbind].
    change (gpd "GeoDataFrame") with (Ok (A:=unit) tt). cbn [rbind].
    destruct v; try reflexivity.
    cbn [assertIsInstance is_GeoDataFrame rbind py_len getattr_columns].
    unfold assertGreater. destruct (gdf_len g0); reflexivity.
  - rewrite bool_decide_false by (intros [? ?]; discriminate). reflexivity.
Qed.

Lemma load_check_only_fails_witness :
  test_02_load_shapefile (Sample.binding "tz_shapefile" (VStr "tanzania.shp"))
  = fail "Tanzania shapefile should be a GeoDataFrame".
Proof.
  refine (eq_trans (load_check_only_fails
                      (Sample.binding "tz_shapefile" (VStr "tanzania.shp"))
                      (<["tz_shapefile" := VStr "tanzania.shp"]> ∅) eq_refl) _).
  vm_compute. reflexivity.
Defined.

Lemma for_all_keys_first_missing (d : gmap string pyval) (pre post : list string)
    (key : string) (msg : string -> string) :
  (forall k, k ∈ pre -> is_Some (d !! k)) -> d !! key = None ->
  for_all (pre ++ key :: post)%list (fun k =>
    (has <- py_contains k (VDict d) ;; assertTrue has (msg k))%res)
  = fail (msg key).
Proof.
  intros Hpre Hkey. induction pre as [|k pre IH]; cbn [app for_all py_contains rbind].
  - rewrite bool_decide_false by (rewrite Hkey; intros [? ?]; discriminate).
    reflexivity.
  - rewrite bool_decide_true by (apply Hpre; constructor).
    cbn [assertTrue rbind]. apply IH. intros z Hz. apply Hpre. now constructor.
Qed.

(** X14.  The shape failures of the [describe_geodataframe] check: a name
    that is not bound, a return value that is no [dict], and a [dict] that
    lacks a required key each fail the check with their own message; for a
    missing key the message names the first one that is missing, in the
    order of [required_keys]. *)
Theorem describe_check_shape_failures (E : Env) (self : ClassState)
    (g : gmap string pyval) :
  globals self = Some g ->
  (g !! "describe_geodataframe" = None ->
   test_03_describe_geodataframe E self
   = fail "Function 'describe_geodataframe' not found")
  /\ (forall f r,
        g !! "describe_geodataframe" = Some f ->
        py_call E f [VGeoDataFrame test_gdf] = Ok r -> is_dict r = false ->
        test_03_describe_geodataframe E self
        = fail "describe_geodataframe should return a dictionary")
  /\ (forall f d before key after,
        g !! "describe_geodataframe" = Some f ->
        py_call E f [VGeoDataFrame test_gdf] = Ok (VDict d) ->
        required_keys = (before ++ key :: after)%list ->
        (forall k, k ∈ before -> is_Some (d !! k)) -> d !! key = None ->
        test_03_describe_geodataframe E self
        = fail ("describe_geodataframe result should have '" +:+ key +:+ "' key")).
Proof.
  intros Hg. unfold test_03_describe_geodataframe. rewrite Hg. cbn [read rbind].
  unfold assertInDict, dict_getitem.
  change (gpd "GeoDataFrame") with (Ok (A:=unit) tt).
  change (gpd "points_from_xy") with (Ok (A:=unit) tt).
  split; [| split].
  - intros Hf. rewrite Hf, bool_decide_false by (intros [? ?]; discriminate).
    reflexivity.
  - intros f r Hf Hcall Hr. rewrite Hf, bool_decide_true by eauto.
    cbn [rbind]. rewrite Hcall. cbn [rbind]. unfold assertIsInstance.
    now rewrite Hr.
  - intros f d before key after Hf Hcall Hreq Hbefore Hkey.
    rewrite Hf, bool_decide_true by eauto. cbn [rbind]. rewrite Hcall.
    cbn [rbind assertIsInstance is_dict]. rewrite Hreq.
    rewrite (for_all_keys_first_missing d before after key (fun key =>
               "describe_geodataframe result should have '" +:+ key +:+ "' key"))
      by assumption.
    reflexivity.
Qed.

Lemma describe_check_shape_failures_witness :
  test_03_describe_geodataframe Sample.wide_world
    (Sample.binding "describe_geodataframe" (VFunction 3))
  = fail "describe_geodataframe should return a dictionary"
  /\ test_03_describe_geodataframe Sample.wide_world
       (Sample.binding "describe_geodataframe" (VFunction 4))
     = fail "describe_geodataframe result should have 'num_features' key".
Proof.
  split.
  - destruct (describe_check_shape_failures Sample.wide_world
                (Sample.binding "describe_geodataframe" (VFunction 3))
                (<["describe_geodataframe" := VFunction 3]> ∅) eq_refl)
      as (_ & H & _).
    apply (H (VFunction 3) (VObject 0)); reflexivity.
  - destruct (describe_check_shape_failures Sample.wide_world
                (Sample.binding "describe_geodataframe" (VFunction 4))
                (<["describe_geodataframe" := VFunction 4]> ∅) eq_refl)
      as (_ & _ & H).
    apply (H (VFunction 4) (delete "num_features" (Sample.description test_gdf))
             ["crs"; "geometry_type"] "num_features" ["attributes"; "bounds"]).
    + reflexivity.
    + reflexivity.
    + reflexivity.
    + intros k Hk. apply elem_of_cons in Hk as [-> | Hk];
        [| apply list_elem_of_singleton in Hk as ->]; vm_compute; eauto.
    + reflexivity.
Defined.



Lemma assertNotEqual_fail (E : Env) (a b : pyval) (msg : string) :
  py_ne E a b = Ok false -> assertNotEqual E a b msg = fail msg.
Proof. intros H. unfold assertNotEqual. now rewrite H. Qed.

Lemma assertNotEqual_pass (E : Env) (a b : pyval) (msg : string) :
  py_ne E a b = Ok true -> assertNotEqual E a b msg = Ok tt.
Proof. intros H. unfold assertNotEqual. now rewrite H. Qed.



(** X16.  What the [describe_geodataframe] check does not turn into a
    failure: a value bound to the name that cannot be called raises
    [TypeError], and an exception raised inside the submission's function
    leaves the method as it is. *)
Theorem describe_check_errors (E : Env) (self : ClassState)
    (g : gmap string pyval) (f : pyval) :
  globals self = Some g ->
  g !! "describe_geodataframe" = Some f ->
  ((forall n, f <> VFunction n) ->
   test_03_describe_geodataframe E self
   = Raise (Exn TypeError ("'" +:+ type_name f +:+ "' object is not callable")))
  /\ (forall e,
        py_call E f [VGeoDataFrame test_gdf] = Raise e ->
        test_03_describe_geodataframe E self = Raise e).
Proof.
  intros Hg Hf.
  assert (Hcall : forall e, py_call E f [VGeoDataFrame test_gdf] = Raise e ->
                            test_03_describe_geodataframe E self = Raise e).
  { intros e He. unfold test_03_describe_geodataframe. rewrite Hg. cbn [read rbind].
    unfold assertInDict. rewrite Hf, bool_decide_true by eauto. cbn [rbind].
    change (gpd "GeoDataFrame") with (Ok (A:=unit) tt).
    change (gpd "points_from_xy") with (Ok (A:=unit) tt). cbn [rbind].
    unfold dict_getitem. rewrite Hf. cbn [rbind]. now rewrite He. }
  split; [| exact Hcall].
  intros Hnot. apply Hcall. destruct f; try reflexivity. now destruct (Hnot f).
Qed.

Lemma describe_check_errors_witness :
  test_03_describe_geodataframe Sample.wide_world
    (Sample.binding "describe_geodataframe" (VStr "todo"))
  = Raise (Exn TypeError "'str' object is not callable")
  /\ test_03_describe_geodataframe Sample.wide_world
       (Sample.binding "describe_geodataframe" (VFunction 6))
     = Raise (Exn (OtherException "ValueError") "no geometry").
Proof.
  split.
  - destruct (describe_check_errors Sample.wide_world
                (Sample.binding "describe_geodataframe" (VStr "todo"))
                (<["describe_geodataframe" := VStr "todo"]> ∅) (VStr "todo")
                eq_refl eq_refl) as [H _].
    apply H. discriminate.
  - destruct (describe_check_errors Sample.wide_world
                (Sample.binding "describe_geodataframe" (VFunction 6))
                (<["describe_geodataframe" := VFunction 6]> ∅) (VFunction 6)
                eq_refl eq_refl) as [_ H].
    apply H. reflexivity.
Defined.

(** X17.  The failures of the transformation check, in the order the
    method meets them: [tz_projected] not bound; [tz_projected] no
    GeoDataFrame (this is decided before the reference system of
    [tz_shapefile] is read); the two reference systems not unequal; the new
    reference system geographic. *)
Theorem reprojection_check_failures (E : Env) (self : ClassState)
    (g : gmap string pyval) :
  globals self = Some g ->
  (g !! "tz_projected" = None ->
   test_04_reproject_data E self
   = fail "Reprojected Tanzania shapefile variable 'tz_projected' not found")
  /\ (forall source projected,
        g !! "tz_shapefile" = Some source -> g !! "tz_projected" = Some projected ->
        is_GeoDataFrame projected = false ->
        test_04_reproject_data E self = fail "tz_projected should be a GeoDataFrame")
  /\ (forall source table crs_source,
        g !! "tz_shapefile" = Some source ->
        g !! "tz_projected" = Some (VGeoDataFrame table) ->
        getattr_crs source = Ok crs_source ->
        (py_ne E crs_source (crs_value (gdf_crs table)) = Ok false ->
         test_04_reproject_data E self
         = fail "The CRS should be changed after reprojection")
        /\ (forall c,
              py_ne E crs_source (crs_value (gdf_crs table)) = Ok true ->
              gdf_crs table = Some c -> is_projected c = false ->
              test_04_reproject_data E self
              = fail "The reprojected data should use a projected CRS")).
Proof.
  intros Hg. unfold test_04_reproject_data. rewrite Hg. cbn [read rbind].
  unfold assertInDict, dict_getitem.
  change (gpd "GeoDataFrame") with (Ok (A:=unit) tt).
  split; [| split].
  - intros Hp. rewrite Hp, bool_decide_false by (intros [? ?]; discriminate).
    reflexivity.
  - intros s p Hs Hp Hinst. rewrite Hp, Hs, bool_decide_true by eauto.
    cbn [rbind]. unfold assertIsInstance. now rewrite Hinst.
  - intros s t cs Hs Hp Hcs. rewrite Hp, Hs, bool_decide_true by eauto.
    cbn [rbind assertIsInstance is_GeoDataFrame]. rewrite Hcs.
    cbn [rbind getattr_crs]. split.
    + intros Hne. now rewrite (assertNotEqual_fail E _ _ _ Hne).
    + intros c Hne Hc Hproj. rewrite (assertNotEqual_pass E _ _ _ Hne), Hc.
      cbn [rbind crs_value getattr_is_projected]. now rewrite Hproj.
Qed.

Lemma reprojection_check_failures_witness :
  test_04_reproject_data Sample.world
    (Sample.both (VStr "tanzania.shp") (VStr "tanzania_utm.shp"))
  = fail "tz_projected should be a GeoDataFrame"
  /\ test_04_reproject_data Sample.world
       (Sample.both (VGeoDataFrame Sample.tz_shapefile)
                    (VGeoDataFrame Sample.tz_shapefile))
     = fail "The CRS should be changed after reprojection"
  /\ test_04_reproject_data Sample.world
       (Sample.both (VGeoDataFrame Sample.without_crs)
                    (VGeoDataFrame Sample.tz_shapefile))
     = fail "The reprojected data should use a projected CRS".
Proof.
  split; [| split].
  - destruct (reprojection_check_failures Sample.world
                (Sample.both (VStr "tanzania.shp") (VStr "tanzania_utm.shp"))
                _ eq_refl) as (_ & H & _).
    apply (H (VStr "tanzania.shp") (VStr "tanzania_utm.shp")); reflexivity.
  - destruct (reprojection_check_failures Sample.world
                (Sample.both (VGeoDataFrame Sample.tz_shapefile)
                             (VGeoDataFrame Sample.tz_shapefile))
                _ eq_refl) as (_ & _ & H).
    destruct (H (VGeoDataFrame Sample.tz_shapefile) Sample.tz_shapefile
                (VCRS epsg4326) eq_refl eq_refl eq_refl) as [H' _].
    apply H'. reflexivity.
  - destruct (reprojection_check_failures Sample.world
                (Sample.both (VGeoDataFrame Sample.without_crs)
                             (VGeoDataFrame Sample.tz_shapefile))
                _ eq_refl) as (_ & _ & H).
    destruct (H (VGeoDataFrame Sample.without_crs) Sample.tz_shapefile VNone
                eq_refl eq_refl eq_refl) as [_ H'].
    apply (H' epsg4326); reflexivity.
Defined.

(** X18.  What the transformation check does not turn into a failure: a
    value bound to [tz_shapefile] that has no attribute [crs] raises
    [AttributeError], and a [tz_projected] without a reference system
    passes the comparison (when [!=] says so) and then raises
    [AttributeError] on [None.is_projected]. *)
Theorem reprojection_check_errors (E : Env) (self : ClassState)
    (g : gmap string pyval) (source : pyval) (table : GeoDataFrame) :
  globals self = Some g ->
  g !! "tz_shapefile" = Some source ->
  g !! "tz_projected" = Some (VGeoDataFrame table) ->
  (forall e, getattr_crs source = Raise e -> test_04_reproject_data E self = Raise e)
  /\ (forall crs_source,
        getattr_crs source = Ok crs_source -> gdf_crs table = None ->
        py_ne E crs_source VNone = Ok true ->
        test_04_reproject_data E self = Raise (no_attribute VNone "is_projected")).
Proof.
  intros Hg Hs Hp. unfold test_04_reproject_data. rewrite Hg. cbn [read rbind].
  unfold assertInDict, dict_getitem. rewrite Hp, Hs, bool_decide_true by eauto.
  change (gpd "GeoDataFrame") with (Ok (A:=unit) tt).
  cbn [rbind assertIsInstance is_GeoDataFrame]. split.
  - intros e He. now rewrite He.
  - intros cs Hcs Hc Hne. rewrite Hcs. cbn [rbind getattr_crs]. rewrite Hc.
    cbn [crs_value]. now rewrite (assertNotEqual_pass E _ _ _ Hne).
Qed.

Lemma reprojection_check_errors_witness :
  test_04_reproject_data Sample.world
    (Sample.both (VStr "tanzania.shp") (VGeoDataFrame Sample.tz_projected))
  = Raise (no_attribute (VStr "tanzania.shp") "crs")
  /\ test_04_reproject_data Sample.world
       (Sample.both (VGeoDataFrame Sample.tz_shapefile)
                    (VGeoDataFrame Sample.without_crs))
     = Raise (no_attribute VNone "is_projected").
Proof.
  split.
  - destruct (reprojection_check_errors Sample.world
                (Sample.both (VStr "tanzania.shp") (VGeoDataFrame Sample.tz_projected))
                _ (VStr "tanzania.shp") Sample.tz_projected eq_refl eq_refl eq_refl)
      as [H _].
    apply H. reflexivity.
  - destruct (reprojection_check_errors Sample.world
                (Sample.both (VGeoDataFrame Sample.tz_shapefile)
                             (VGeoDataFrame Sample.without_crs))
                _ (VGeoDataFrame Sample.tz_shapefile) Sample.without_crs
                eq_refl eq_refl eq_refl) as [_ H].
    apply (H (VCRS epsg4326)); reflexivity.
Defined.

(** * Properties of the whole run *)

(** X19.  No run ends with six passed checks: whenever the fixture returns,
    on whatever state, the last method, [test_05_compare_projections],
    does not pass, because it either fails on the missing name, raises on
    the missing attribute [globals], or raises on [gpd.box]. *)
Theorem suite_never_clean (E : Env) (disk : result Notebook) (outcomes : list outcome) :
  run_suite E disk = inr outcomes ->
  length outcomes = 6 /\ last outcomes <> Some Passed.
Proof.
  unfold run_suite. destruct (setUpClass E disk initial) as [self [[]|e]];
    [| discriminate].
  intros [= <-]. split; [reflexivity |].
  cbn [checks map last]. intros [= Hlast].
  unfold report in Hlast.
  destruct (test_05_compare_projections E self) as [[]|e] eqn:H5.
  - unfold test_05_compare_projections in H5.
    apply rbind_Ok in H5 as (g & _ & H5).
    apply rbind_Ok in H5 as ([] & _ & H5).
    apply rbind_Ok in H5 as (f & _ & H5).
    discriminate.
  - destruct (bool_decide (exn_cls e = AssertionError)); discriminate.
Qed.

Lemma suite_never_clean_witness :
  length [ Passed; Passed; Passed; Passed; Passed;
           Errored (Exn AttributeError "module 'geopandas' has no attribute 'box'") ] = 6
  /\ last [ Passed; Passed; Passed; Passed; Passed;
            Errored (Exn AttributeError "module 'geopandas' has no attribute 'box'") ]
     <> Some Passed.
Proof.
  apply (suite_never_clean Sample.world (Ok Sample.submission)).
  vm_compute. reflexivity.
Defined.

Lemma import_statements_subset (cs cs' : list Cell) (lib : string) :
  (forall cell, cell ∈ cs -> cell ∈ cs') ->
  lib ∈ import_statements cs -> lib ∈ import_statements cs'.
Proof.
  intros Hsub. unfold import_statements. rewrite !list_elem_of_In, !in_flat_map.
  intros (cell & Hcell & Hlib). exists cell. split; [| assumption].
  apply list_elem_of_In, Hsub, list_elem_of_In, Hcell.
Qed.

(** X20.  The import check looks at the set of cells only: a document that
    holds every cell of a document that passes the import check passes it
    too, in whatever order its cells come and whatever cells it adds. *)
Theorem import_check_monotone (self self' : ClassState) (nb nb' : Notebook) :
  notebook self = Some (Some nb) -> notebook self' = Some (Some nb') ->
  (forall cell, cell ∈ cells nb -> cell ∈ cells nb') ->
  test_01_required_libraries self = Ok tt ->
  test_01_required_libraries self' = Ok tt.
Proof.
  intros Hnb Hnb' Hsub. unfold test_01_required_libraries, notebook_cells.
  rewrite Hnb, Hnb'. cbn [read rbind]. intros H.
  apply (for_all_assertIn (import_statements (cells nb')) required_libraries
           (fun lib => "Required library '" +:+ lib +:+ "' is not imported")).
  intros lib Hlib. apply (import_statements_subset (cells nb)); [assumption |].
  revert lib Hlib.
  apply (for_all_assertIn (import_statements (cells nb)) required_libraries
           (fun lib => "Required library '" +:+ lib +:+ "' is not imported")).
  exact H.
Qed.

Lemma import_check_monotone_witness :
  test_01_required_libraries
    (fst (setUpClass Sample.world (Ok Sample.submission) initial)) = Ok tt.
Proof.
  apply (import_check_monotone
           (fst (setUpClass Sample.world (Ok Sample.code_only) initial)) _
           Sample.code_only Sample.submission).
  - reflexivity.
  - reflexivity.
  - intros cell Hcell. unfold Sample.code_only, Sample.submission in *.
    cbn [cells] in *.
    repeat (apply elem_of_cons in Hcell as [-> | Hcell];
            [set_solver |]).
    inversion Hcell.
  - vm_compute. reflexivity.
Defined.
